(** * The RATP restroom dashboard (app.py): fetch, clean, filter, Home page

    A shallow embedding of [load_data_from_api], [clean_data], the sidebar
    filter that computes [df_filtre], and the "Accueil" page of app.py.

    The script is Python on top of pandas, requests and streamlit.  The
    embedding keeps three things explicit:
    - Python values as they come out of [response.json()];
    - data frames as pandas has them: a row index plus an ordered list of
      labelled columns (a frame can have rows and no column);
    - the object store: a frame is reached through a reference, [df.copy()]
      allocates, [df[k] = v] updates in place.

    [st.cache_data] is transparent here, and of the four pages only
    "Accueil" is modelled. *)

From Stdlib Require Import QArith Sorted.
From stdpp Require Import base option list strings.

Open Scope string_scope.
Open Scope list_scope.
Set Warnings "-register-all".

(** ** Python values *)

Module Py.

(** What [response.json()] can hold.  [VNaN] is the float NaN that pandas
    puts where a record has no value for a column; a number that is not NaN
    is kept as the exact rational of its literal (the program only moves
    numbers around, it never computes with them). *)
Inductive pyval : Type :=
| VNone
| VNaN
| VBool (b : bool)
| VInt (z : Z)
| VFloat (q : Q)
| VStr (s : string)
| VList (l : list pyval)
| VDict (d : list (string * pyval)).

(** What a [KeyError] carries: the key of a failed lookup, or the list of
    labels that pandas did not find. *)
Inductive key : Type :=
| Label (k : string)
| Labels (ks : list string).

(** The exceptions that the modelled code can meet. *)
Inductive exn : Type :=
| KeyError (k : key)
| TypeError (msg : string)
| AttributeError (msg : string)
| JSONDecodeError (msg : string)
| RequestException (msg : string)
| SystemError (msg : string).

Definition quote (k : string) : string := "'" ++ k ++ "'".

Fixpoint join (sep : string) (l : list string) : string :=
  match l with
  | [] => ""
  | [x] => x
  | x :: l' => x ++ sep ++ join sep l'
  end.

(** [str(e)] as interpolated by the f-string of the fetcher.  [KeyError]
    prints the repr of what it carries. *)
Definition exn_str (e : exn) : string :=
  match e with
  | KeyError (Label k) => quote k
  | KeyError (Labels ks) => "[" ++ join ", " (map quote ks) ++ "]"
  | TypeError m | AttributeError m | JSONDecodeError m
  | RequestException m | SystemError m => m
  end.

(** The outcome of a Python expression: a value or a raised exception. *)
Inductive result (A : Type) : Type :=
| Ok (a : A)
| Raise (e : exn).
Arguments Ok {A} a.
Arguments Raise {A} e.

#[global] Instance result_ret : MRet result := fun A a => Ok a.
#[global] Instance result_bind : MBind result := fun A B k r =>
  match r with
  | Ok a => k a
  | Raise e => Raise e
  end.

(** A list comprehension whose element expression can raise. *)
Fixpoint for_each {A B} (f : A -> result B) (l : list A) : result (list B) :=
  match l with
  | [] => Ok []
  | x :: l' => y ← f x; ys ← for_each f l'; Ok (y :: ys)
  end.

(** A JSON object is a dict: keys in insertion order. *)
Definition record : Type := list (string * pyval).

(** [d.get(k)] / [k in d] on a dict held as an association list. *)
Fixpoint assoc {A} (k : string) (d : list (string * A)) : option A :=
  match d with
  | [] => None
  | (k', v) :: d' => if String.eqb k k' then Some v else assoc k d'
  end.

Definition mem (k : string) (ks : list string) : bool :=
  existsb (String.eqb k) ks.

(** First occurrences, in order (dict-key union, [Series.unique]). *)
Fixpoint unique_acc (seen : list string) (l : list string) : list string :=
  match l with
  | [] => []
  | x :: l' => if mem x seen then unique_acc seen l'
               else x :: unique_acc (x :: seen) l'
  end.

Definition unique (l : list string) : list string := unique_acc [] l.

(** [sorted] on a list of [str]: insertion into code-point order, which on
    UTF-8 strings is the byte-wise lexicographic order. *)
Fixpoint insert_sorted (x : string) (l : list string) : list string :=
  match l with
  | [] => [x]
  | y :: l' => if String.leb x y then x :: y :: l' else y :: insert_sorted x l'
  end.

Definition sorted (l : list string) : list string :=
  foldr insert_sorted [] l.

(** [type(v).__name__], as it appears in the interpreter's messages. *)
Definition type_name (v : pyval) : string :=
  match v with
  | VNone => "NoneType"
  | VNaN | VFloat _ => "float"
  | VBool _ => "bool"
  | VInt _ => "int"
  | VStr _ => "str"
  | VList _ => "list"
  | VDict _ => "dict"
  end.

(** [pd.isna] on a cell: [None] and NaN are missing. *)
Definition isna (v : pyval) : bool :=
  match v with
  | VNone | VNaN => true
  | _ => false
  end.

End Py.
Import Py.

(** ** pandas data frames

    Cells hold Python values as the program hands them to pandas.  The
    dtype that pandas infers for a column decides how a cell is stored (a
    [None] next to floats or to text is stored as NaN, an [int] next to a
    missing value as a [float]); that storage is not modelled.  The
    program never tells [None] from NaN ([pd.isna] is true of both), so a
    statement about a missing cell says that it is missing, not which of
    the two it holds.

    The script pins no version of pandas.  Where pandas 2 and pandas 3
    differ in what the program can observe, the version is a parameter. *)

Module Pandas.

Inductive pandas_version : Type :=
| Pandas2
| Pandas3.

Abbreviation Series := (list pyval) (only parsing).

(** A frame: the row labels and the labelled columns, in order.  Every
    column of a frame built by the operations below is as long as the
    index; the index survives row selection ([dropna] keeps the labels of
    the rows it keeps). *)
Record DataFrame : Type := mkDataFrame {
  index : list nat;
  cols : list (string * Series)
}.

(** [df.columns] *)
Definition columns (df : DataFrame) : list string := map fst (cols df).

(** [len(df)] *)
Definition len (df : DataFrame) : nat := length (index df).

(** [pd.DataFrame()] *)
Definition empty_frame : DataFrame := mkDataFrame [] [].

(** [df.empty]: true when either axis has length 0. *)
Definition empty (df : DataFrame) : bool :=
  match index df, cols df with
  | [], _ | _, [] => true
  | _, _ => false
  end.

(** [k in df.columns] *)
Definition has_col (k : string) (df : DataFrame) : bool := mem k (columns df).

(** [pd.DataFrame(records)] for a list of dicts: the columns are the keys
    in order of first appearance, the index is 0..n-1, and a record without
    a key gets NaN in that column.  (A present value is the record's own,
    up to the storage that dtype inference chooses, see above.) *)
Definition DataFrame_of_records (rs : list record) : DataFrame :=
  let labels := unique (concat (map (map fst) rs)) in
  mkDataFrame (seq 0 (length rs))
    (map (fun k => (k, map (fun r => default VNaN (assoc k r)) rs)) labels).

(** [df[k]] read: the column, or [KeyError]. *)
Definition getitem (df : DataFrame) (k : string) : result Series :=
  match assoc k (cols df) with
  | Some s => Ok s
  | None => Raise (KeyError (Label k))
  end.

(** The cells of column [k] (nothing when [k] is not a column). *)
Definition column (df : DataFrame) (k : string) : Series :=
  default [] (assoc k (cols df)).

(** Every column has one cell per row. *)
Definition rectangular (df : DataFrame) : bool :=
  forallb (fun c => Nat.eqb (length (snd c)) (length (index df))) (cols df).

(** No label is used twice.  pandas gives a sub-frame, not a column, for a
    repeated label; the statements about columns below are for frames
    whose labels are distinct. *)
Fixpoint distinct (l : list string) : bool :=
  match l with
  | [] => true
  | x :: l' => negb (mem x l') && distinct l'
  end.

(** More than one column carries the label [k]: [df[k]] is then a
    sub-frame and not a column. *)
Definition repeated (k : string) (df : DataFrame) : bool :=
  Nat.ltb 1 (length (List.filter (String.eqb k) (columns df))).

(** The cell of column [k] at row position [i], when there is one. *)
Definition cell (df : DataFrame) (k : string) (i : nat) : option pyval :=
  match assoc k (cols df) with
  | Some s => s !! i
  | None => None
  end.

Fixpoint replace_col (k : string) (s : Series) (cs : list (string * Series))
  : list (string * Series) :=
  match cs with
  | [] => []
  | (k', s') :: cs' =>
      if String.eqb k k' then (k', s) :: cs' else (k', s') :: replace_col k s cs'
  end.

(** [df[k] = s] on the frame value: an existing column is overwritten in
    its place, a new one is appended on the right. *)
Definition setitem (df : DataFrame) (k : string) (s : Series) : DataFrame :=
  if has_col k df
  then mkDataFrame (index df) (replace_col k s (cols df))
  else mkDataFrame (index df) (cols df ++ [(k, s)]).

(** [df[k] = scalar]: the scalar is broadcast along the index. *)
Definition broadcast (df : DataFrame) (v : pyval) : Series :=
  map (fun _ => v) (index df).

(** Boolean row selection: keep the positions where the mask is true. *)
Fixpoint select {A} (mask : list bool) (xs : list A) : list A :=
  match mask, xs with
  | b :: mask', x :: xs' => if b then x :: select mask' xs' else select mask' xs'
  | _, _ => []
  end.

(** [df[mask]] *)
Definition select_rows (mask : list bool) (df : DataFrame) : DataFrame :=
  mkDataFrame (select mask (index df))
    (map (fun c => (fst c, select mask (snd c))) (cols df)).

(** Element-wise conjunction of two masks over the same rows. *)
Fixpoint mask_and (m1 m2 : list bool) : list bool :=
  match m1, m2 with
  | b1 :: m1', b2 :: m2' => (b1 && b2) :: mask_and m1' m2'
  | _, _ => []
  end.

(** The rows that have a value in every column of [subset]. *)
Fixpoint notna_mask (df : DataFrame) (subset : list string) : list bool :=
  match subset with
  | [] => map (fun _ => true) (index df)
  | k :: subset' =>
      mask_and (map (fun v => negb (isna v)) (column df k))
               (notna_mask df subset')
  end.

(** [df.dropna(subset=...)]: [KeyError] with the labels of [subset] that are
    not columns, if any; otherwise a new frame without the rows that miss a
    value in one of the listed columns. *)
Definition dropna (subset : list string) (df : DataFrame) : result DataFrame :=
  match List.filter (fun k => negb (has_col k df)) subset with
  | [] => Ok (select_rows (notna_mask df subset) df)
  | missing => Raise (KeyError (Labels missing))
  end.

(** [df.rename(columns=mapping)]: labels in the mapping are replaced, the
    others pass through. *)
Definition rename (mapping : list (string * string)) (df : DataFrame) : DataFrame :=
  mkDataFrame (index df)
    (map (fun c => (default (fst c) (assoc (fst c) mapping), snd c)) (cols df)).

(** [s.fillna(v)] *)
Definition fillna (v : pyval) (s : Series) : Series :=
  map (fun x => if isna x then v else x) s.

(** [s.apply(f)]: the function on every cell.  (How the result is stored
    is left to dtype inference, see above.) *)
Definition apply (f : pyval -> pyval) (s : Series) : Series := map f s.

(** [s.isin(values)] for a list of [str]: a cell that is not text equals
    none of them. *)
Definition isin (values : list string) (s : Series) : list bool :=
  map (fun v => match v with VStr x => mem x values | _ => false end) s.

(** [s == text], element-wise. *)
Definition eq_str (x : string) (s : Series) : list bool :=
  map (fun v => match v with VStr y => String.eqb y x | _ => false end) s.

End Pandas.
Import Pandas.

(** ** The application *)

Module App.

(** What the script puts on the page, in order. *)
Inductive figure : Type :=
| px_pie (data : DataFrame) (names : string).

Inductive widget : Type :=
| st_title (body : string)
| st_success (body : string)
| st_error (body : string)
| st_warning (body : string)
| st_metric (label : string) (value : nat)
| st_markdown (body : string)
| st_subheader (body : string)
| st_plotly_chart (fig : figure).

(** What [requests.get(url)] gives the fetcher: an exception, or a response
    with its status code and what [response.json()] does when called. *)
Inductive http_reply : Type :=
| NoReply (e : exn)
| Reply (status_code : Z) (json : result pyval).

(** The object store.  A frame variable holds a reference; [new] is what a
    pandas call that returns a fresh frame does. *)
Abbreviation store := (list DataFrame) (only parsing).
Abbreviation ref := nat (only parsing).
Definition M (A : Type) : Type := store -> result A * store.

#[global] Instance M_ret : MRet M := fun A a σ => (Ok a, σ).
#[global] Instance M_bind : MBind M := fun A B k m σ =>
  match m σ with
  | (Ok a, σ') => k a σ'
  | (Raise e, σ') => (Raise e, σ')
  end.

Definition lift {A} (r : result A) : M A := fun σ => (r, σ).

Definition new (d : DataFrame) : M ref := fun σ => (Ok (length σ), σ ++ [d]).

Definition deref (r : ref) : M DataFrame := fun σ =>
  match σ !! r with
  | Some d => (Ok d, σ)
  | None => (Raise (SystemError "dangling reference"), σ)
  end.

Definition assign (r : ref) (d : DataFrame) : M unit := fun σ =>
  (Ok tt, <[r := d]> σ).

(** [try: body except: handler] -- what the body did to the store before it
    raised stays done. *)
Definition try_except {A} (body : M A) (handler : exn -> M A) : M A := fun σ =>
  match body σ with
  | (Raise e, σ') => handler e σ'
  | done => done
  end.

(** [df.copy()] *)
Definition copy (df : ref) : M ref := d ← deref df; new d.

(** [df[k]] *)
Definition getitem_ref (df : ref) (k : string) : M Series :=
  d ← deref df; lift (getitem d k).

(** [df[k] = s], in place. *)
Definition setitem_ref (df : ref) (k : string) (s : Series) : M unit :=
  d ← deref df; assign df (setitem d k s).

Section Program.

(** [str(v)] on a number, a list or a dict is the interpreter's formatting
    and is taken as given. *)
Variable pandas : pandas_version.
Variable py_repr : pyval -> string.

(** [pd.DataFrame(l)] on a list that is not a list of dicts: a frame with
    positional labels, or the exception that pandas raises (on a dict
    followed by something else, for one); that part of the constructor is
    taken as given. *)
Variable positional_frame : list pyval -> result DataFrame.

(** [str(v)] *)
Definition py_str (v : pyval) : string :=
  match v with
  | VStr s => s
  | VNone => "None"
  | VNaN => "nan"
  | VBool true => "True"
  | VBool false => "False"
  | _ => py_repr v
  end.

(** [s.astype(str)] on one cell: [str] of a value; a missing cell becomes
    the text of its [str] ("None", "nan") under pandas 2 and stays missing
    under pandas 3. *)
Definition astype_str_cell (v : pyval) : pyval :=
  if isna v then
    match pandas with
    | Pandas2 => VStr (py_str v)
    | Pandas3 => VNaN
    end
  else VStr (py_str v).

(** [s.astype(str)] *)
Definition astype_str (s : Series) : Series := map astype_str_cell s.

(** *** load_data_from_api *)

(** [data.get('records', [])] *)
Definition get_records (data : pyval) : result pyval :=
  match data with
  | VDict d => Ok (default (VList []) (assoc "records" d))
  | _ => Raise (AttributeError (quote (type_name data) ++ " object has no attribute 'get'"))
  end.

(** [for r in records]: a list gives its items, a dict its keys, a string
    its characters; nothing else is iterable. *)
Definition iter (v : pyval) : result (list pyval) :=
  match v with
  | VList l => Ok l
  | VDict d => Ok (map (fun kv => VStr (fst kv)) d)
  | VStr s => Ok (map (fun c => VStr (String c "")) (String.list_ascii_of_string s))
  | _ => Raise (TypeError (quote (type_name v) ++ " object is not iterable"))
  end.

(** [r['fields']] *)
Definition fields_of (r : pyval) : result pyval :=
  match r with
  | VDict d =>
      match assoc "fields" d with
      | Some f => Ok f
      | None => Raise (KeyError (Label "fields"))
      end
  | VList _ => Raise (TypeError "list indices must be integers or slices, not str")
  | VStr _ => Raise (TypeError "string indices must be integers, not 'str'")
  | _ => Raise (TypeError (quote (type_name r) ++ " object is not subscriptable"))
  end.

Definition as_dict (v : pyval) : option record :=
  match v with
  | VDict d => Some d
  | _ => None
  end.

(** The dicts of a list that holds nothing else. *)
Fixpoint all_dicts (l : list pyval) : option (list record) :=
  match l with
  | [] => Some []
  | v :: l' =>
      match as_dict v, all_dicts l' with
      | Some d, Some ds => Some (d :: ds)
      | _, _ => None
      end
  end.

(** [pd.DataFrame(clean_records)] *)
Definition pd_DataFrame (l : list pyval) : result DataFrame :=
  match all_dicts l with
  | Some rs => Ok (DataFrame_of_records rs)
  | None => positional_frame l
  end.

Definition connection_error : string := "Erreur de connexion à l'API RATP.".

Definition technical_error (e : exn) : string := "Erreur technique : " ++ exn_str e.

(** The fetcher: what it shows and the frame it returns. *)
Definition load_data_from_api (reply : http_reply) : list widget * DataFrame :=
  let body : result (list widget * DataFrame) :=
    match reply with
    | NoReply e => Raise e
    | Reply status_code json =>
        if (status_code =? 200)%Z then
          data ← json;
          records ← get_records data;
          items ← iter records;
          clean_records ← for_each fields_of items;
          df ← pd_DataFrame clean_records;
          Ok ([], df)
        else
          Ok ([st_error connection_error], empty_frame)
    end in
  match body with
  | Ok shown_df => shown_df
  | Raise e => ([st_error (technical_error e)], empty_frame)
  end.

(** *** clean_data *)

Definition lat_of (x : pyval) : pyval :=
  match x with
  | VList [a; _] => a
  | _ => VNone
  end.

Definition lon_of (x : pyval) : pyval :=
  match x with
  | VList [_; b] => b
  | _ => VNone
  end.

Definition mapping : list (string * string) :=
  [ ("ligne", "Ligne");
    ("station", "Station");
    ("tarif_gratuit_payant", "Tarif");
    ("acces_bouton_poussoir", "Accessibilité");
    ("en_zone_controlee_ou_hors_zone_controlee_station", "Zone") ].

Definition clean_data (df : ref) : M ref :=
  d ← deref df;
  if empty d then mret df else
  df ← copy df;
  d ← deref df;
  _ ← (if has_col "coord_geo" d then
         try_except
           (s ← getitem_ref df "coord_geo";
            _ ← setitem_ref df "lat" (apply lat_of s);
            s ← getitem_ref df "coord_geo";
            setitem_ref df "lon" (apply lon_of s))
           (fun _ => mret tt)
       else mret tt);
  d ← deref df;
  d ← lift (dropna ["lat"; "lon"] d);
  df ← new d;
  d ← deref df;
  df ← new (rename mapping d);
  d ← deref df;
  _ ← (if has_col "Tarif" d then
         s ← getitem_ref df "Tarif";
         setitem_ref df "Tarif" (fillna (VStr "Inconnu") s)
       else
         setitem_ref df "Tarif" (broadcast d (VStr "Inconnu")));
  d ← deref df;
  _ ← (if has_col "Ligne" d then
         s ← getitem_ref df "Ligne";
         setitem_ref df "Ligne" (astype_str s)
       else
         setitem_ref df "Ligne" (broadcast d (VStr "Inconnue")));
  d ← deref df;
  _ ← setitem_ref df "color" (broadcast d (VStr "#FF0000"));
  mret df.

(** [clean_data(raw_df)] run with [raw_df] as the only object: the returned
    frame, and the frame that [raw_df] refers to afterwards. *)
Definition clean_table (raw_df : DataFrame) : result DataFrame :=
  let '(r, σ) := clean_data 0 [raw_df] in
  df ← r;
  match σ !! df with
  | Some d => Ok d
  | None => Raise (SystemError "dangling reference")
  end.

Definition raw_after_clean (raw_df : DataFrame) : option DataFrame :=
  snd (clean_data 0 [raw_df]) !! 0.

(** *** clean_data, step by step on frame values

    The same statements as in [clean_data], read as functions on the frame
    that the local variable [df] refers to.  [clean_data_run] below shows
    that running [clean_data] leaves exactly these frames in the store. *)

(** The try block of lines 44-50 (with its guard). *)
Definition extract_coords (d : DataFrame) : DataFrame :=
  if has_col "coord_geo" d then
    let d := setitem d "lat" (apply lat_of (column d "coord_geo")) in
    setitem d "lon" (apply lon_of (column d "coord_geo"))
  else d.

(** Lines 67-78. *)
Definition standardise (d : DataFrame) : DataFrame :=
  let d :=
    if has_col "Tarif" d
    then setitem d "Tarif" (fillna (VStr "Inconnu") (column d "Tarif"))
    else setitem d "Tarif" (broadcast d (VStr "Inconnu")) in
  let d :=
    if has_col "Ligne" d
    then setitem d "Ligne" (astype_str (column d "Ligne"))
    else setitem d "Ligne" (broadcast d (VStr "Inconnue")) in
  setitem d "color" (broadcast d (VStr "#FF0000")).

Definition clean_frame (d : DataFrame) : result DataFrame :=
  if empty d then Ok d else
  d ← dropna ["lat"; "lon"] (extract_coords d);
  Ok (standardise (rename mapping d)).

(** *** The sidebar filter *)

(** A cell of the Ligne column as a sort key (the message of the
    exception is abridged).  After [clean_data] a cell
    of that column is text or, under pandas 3, missing.  [sorted] raises
    [TypeError] when it has to compare text with the float NaN; that is
    what a cell that is not text gives here.  (A column with nothing but
    missing cells sorts without error in Python; no statement below is
    about such a column.) *)
Definition as_text (v : pyval) : result string :=
  match v with
  | VStr x => Ok x
  | _ => Raise (TypeError "'<' not supported between instances")
  end.

(** [sorted(df['Ligne'].unique())].  When the label is repeated,
    [df['Ligne']] is a sub-frame, which has no [unique]. *)
Definition lignes_dispo (df : DataFrame) : result (list string) :=
  s ← getitem df "Ligne";
  if repeated "Ligne" df
  then Raise (AttributeError "'DataFrame' object has no attribute 'unique'")
  else
    texts ← for_each as_text s;
    Ok (sorted (unique texts)).

(** Lines 94-102.  [multiselect] is the user: given the options (which are
    also the default) it answers with the chosen lines. *)
Definition df_filtre (multiselect : list string -> list string) (df : DataFrame)
  : result DataFrame :=
  if negb (empty df) && has_col "Ligne" df then
    lignes_dispo ← lignes_dispo df;
    let choix_lignes := multiselect lignes_dispo in
    match choix_lignes with
    | [] => Ok df
    | _ :: _ =>
        s ← getitem df "Ligne";
        Ok (select_rows (isin choix_lignes s) df)
    end
  else Ok df.

(** *** The Accueil page *)

Definition success_banner : widget :=
  st_success "✅ Données récupérées avec succès depuis l'API officielle !".

(** [menu == "Accueil"]: what is shown, and whether the block ran to its
    end.  The two metrics sit in two layout columns. *)
Definition page_accueil (df df_filtre : DataFrame) : list widget * result unit :=
  let shown := [st_title "🚾 Dashboard RATP (API En direct)"; success_banner] in
  if negb (empty df) then
    let shown := shown ++ [st_metric "Stations trouvées" (len df_filtre)] in
    match getitem df_filtre "Tarif" with
    | Raise e => (shown, Raise e)
    | Ok tarif =>
        let gratuit := len (select_rows (eq_str "Gratuit" tarif) df_filtre) in
        (shown ++ [st_metric "Toilettes Gratuites" gratuit;
                   st_markdown "---";
                   st_subheader "💰 Répartition Gratuit / Payant";
                   st_plotly_chart (px_pie df_filtre "Tarif")],
         Ok tt)
    end
  else (shown, Ok tt).

End Program.
End App.
Import App.

(** ** The scenarios of the specification *)

(** [{"coord_geo":[48.85,2.35],"ligne":"1","tarif_gratuit_payant":"Payant"}] *)
Definition paris_record : record :=
  [ ("coord_geo", VList [VFloat 48.85; VFloat 2.35]);
    ("ligne", VStr "1");
    ("tarif_gratuit_payant", VStr "Payant") ].

(** [{"ligne":"4"}] *)
Definition ligne4_record : record := [ ("ligne", VStr "4") ].

(** [{"coord_geo":[1.5,2.5]}]: coordinates, and no line. *)
Definition no_ligne_record : record :=
  [ ("coord_geo", VList [VFloat 1.5; VFloat 2.5]) ].




(** An interpreter whose formatting of numbers, lists and dicts is of no
    interest, and a frame constructor that refuses positional data. *)
Definition no_repr (v : pyval) : string := "".
Definition no_positional (l : list pyval) : result DataFrame :=
  Raise (TypeError "positional data").

(** ** The other pages and the script as a whole *)

Module Script.

(** [px.bar(df_count, x=.., y=.., color=.., color_continuous_scale=..,
    text=..)] *)
Inductive bar_figure : Type :=
| px_bar (data : DataFrame) (x y color color_continuous_scale text : string).

(** Everything a run of the script puts on screen: the widgets of the main
    area, and those of the sidebar.  The spinner of line 83 is gone once
    the load is over and is left out. *)
Inductive element : Type :=
| Main (w : widget)
| st_bar_chart (fig : bar_figure)
| st_map (data : DataFrame) (latitude longitude color : string)
| st_dataframe (data : DataFrame)
| sidebar_title (body : string)
| sidebar_radio (label : string) (options : list string)
| sidebar_markdown (body : string)
| sidebar_header (body : string)
| sidebar_multiselect (label : string) (options default : list string).

(** The four values of the navigation radio. *)
Inductive menu : Type :=
| Accueil
| Statistiques
| Carte
| Donnees.

Definition menu_label (m : menu) : string :=
  match m with
  | Accueil => "Accueil"
  | Statistiques => "Statistiques"
  | Carte => "Carte"
  | Donnees => "Données"
  end.

Section Pages.

Variable pandas : pandas_version.
Variable py_repr : pyval -> string.
Variable positional_frame : list pyval -> result DataFrame.

(** [s.value_counts()]: the distinct values of a column with the number of
    rows that hold each.  pandas orders them by decreasing count and leaves
    the order among equal counts to its sort; the function is taken as
    given. *)
Variable value_counts : list pyval -> list (pyval * nat).

(** [df_filtre['Ligne'].value_counts().reset_index()] with its two columns
    named Ligne and Nombre (lines 129-130). *)
Definition df_count (ligne : list pyval) : DataFrame :=
  let counts := value_counts ligne in
  mkDataFrame (seq 0 (length counts))
    [ ("Ligne", map fst counts);
      ("Nombre", map (fun c => VInt (Z.of_nat (snd c))) counts) ].

(** [menu == "Statistiques"] *)
Definition page_statistiques (df_filtre : DataFrame) : list element * result unit :=
  let shown := [Main (st_title "📊 Statistiques")] in
  if negb (empty df_filtre) then
    let shown := shown ++ [Main (st_subheader "Top des Lignes les mieux équipées")] in
    match getitem df_filtre "Ligne" with
    | Raise e => (shown, Raise e)
    | Ok ligne =>
        (shown ++ [st_bar_chart
                     (px_bar (df_count ligne) "Ligne" "Nombre" "Nombre" "Blues" "Nombre")],
         Ok tt)
    end
  else (shown ++ [Main (st_warning "Pas de données.")], Ok tt).

(** [menu == "Carte"] *)
Definition page_carte (df_filtre : DataFrame) : list element * result unit :=
  let shown := [Main (st_title "📍 Carte en direct")] in
  if negb (empty df_filtre)
  then (shown ++ [st_map df_filtre "lat" "lon" "color"], Ok tt)
  else (shown ++ [Main (st_warning "Pas de données GPS.")], Ok tt).

(** [menu == "Données"] *)
Definition page_donnees (df_filtre : DataFrame) : list element * result unit :=
  ([Main (st_title "📋 Données Brutes API"); st_dataframe df_filtre], Ok tt).

(** Lines 107-151: the page that the radio selects. *)
Definition page (m : menu) (df df_filtre : DataFrame) : list element * result unit :=
  match m with
  | Accueil =>
      let '(shown, outcome) := page_accueil df df_filtre in (map Main shown, outcome)
  | Statistiques => page_statistiques df_filtre
  | Carte => page_carte df_filtre
  | Donnees => page_donnees df_filtre
  end.

(** Lines 88-92: the head of the sidebar. *)
Definition sidebar_head : list element :=
  [ sidebar_title "Navigation";
    sidebar_radio "Aller à" (map menu_label [Accueil; Statistiques; Carte; Donnees]);
    sidebar_markdown "---";
    sidebar_header "Filtres" ].

(** Line 96, as far as the screen goes: the multiselect is shown when the
    table is not empty, has a Ligne column and its options could be
    computed. *)
Definition sidebar_filter (df : DataFrame) : list element :=
  if negb (empty df) && has_col "Ligne" df then
    match lignes_dispo df with
    | Ok options => [sidebar_multiselect "Filtrer par ligne" options options]
    | Raise _ => []
    end
  else [].

(** One run of the script (lines 83-151): the reply of the API, the page
    the user is on and the way the user answers the multiselect give what
    is on screen and whether the run ended with an exception. *)
Definition script (reply : http_reply) (radio : menu)
    (multiselect : list string -> list string) : list element * result unit :=
  let '(messages, raw_df) := load_data_from_api positional_frame reply in
  let shown := map Main messages in
  match clean_table pandas py_repr raw_df with
  | Raise e => (shown, Raise e)
  | Ok df =>
      let shown := shown ++ sidebar_head ++ sidebar_filter df in
      match df_filtre multiselect df with
      | Raise e => (shown, Raise e)
      | Ok view =>
          let '(page_shown, outcome) := page radio df view in
          (shown ++ page_shown, outcome)
      end
  end.

End Pages.
End Script.
Import Script.

(** ** Notions used to state properties *)

(** A cell holds the value [a]: it is there, and it is [a] itself, or a
    missing value when [a] is missing. *)
Definition cell_holds (c : option pyval) (a : pyval) : Prop :=
  exists v, c = Some v /\ (if isna a then isna v = true else v = a).

(** The Tarif of a row whose provider cell is [c]. *)
Definition tarif_of (c : option pyval) : pyval :=
  match c with
  | Some v => if isna v then VStr "Inconnu" else v
  | None => VStr "Inconnu"
  end.

(** A coord_geo cell from which a row gets both coordinates: a two-element
    list whose elements are not missing. *)
Definition usable_coord (x : pyval) : bool :=
  match x with
  | VList [a; b] => negb (isna a) && negb (isna b)
  | _ => false
  end.

(** A Tarif cell that the second metric of the Accueil page counts. *)
Definition is_gratuit (v : pyval) : bool :=
  match v with
  | VStr y => String.eqb y "Gratuit"
  | _ => false
  end.

(** A Ligne cell that a selection of lines keeps. *)
Definition chosen (choix_lignes : list string) (v : pyval) : bool :=
  match v with
  | VStr x => mem x choix_lignes
  | _ => false
  end.

(** * Properties *)

(** ** Lookups in labelled columns *)

Lemma mem_In (k : string) (l : list string) : mem k l = true <-> In k l.
Proof.
  unfold mem. rewrite existsb_exists. split.
  - intros (x & Hx & E). apply String.eqb_eq in E. now subst.
  - intros H. exists k. split; [done | apply String.eqb_refl].
Qed.

Lemma mem_map_fst {A} (k : string) (cs : list (string * A)) :
  mem k (map fst cs) = true <-> exists s, assoc k cs = Some s.
Proof.
  induction cs as [|[k' s'] cs IH]; simpl.
  - split; [discriminate | intros [? ?]; discriminate].
  - destruct (String.eqb k k'); simpl; [split; eauto | exact IH].
Qed.

Lemma mem_map_fst_false {A} (k : string) (cs : list (string * A)) :
  mem k (map fst cs) = false <-> assoc k cs = None.
Proof.
  induction cs as [|[k' s'] cs IH]; simpl; [done|].
  destruct (String.eqb k k'); simpl; [split; discriminate | exact IH].
Qed.

Lemma getitem_has_col (d : DataFrame) (k : string) :
  has_col k d = true -> getitem d k = Ok (column d k).
Proof.
  unfold has_col, columns, getitem, column. intros H.
  apply mem_map_fst in H as [s ->]. reflexivity.
Qed.

Lemma assoc_replace_col_eq (k : string) (s : Series) cs :
  mem k (map fst cs) = true -> assoc k (replace_col k s cs) = Some s.
Proof.
  induction cs as [|[k' s'] cs IH]; simpl; [discriminate|].
  destruct (String.eqb k k') eqn:E; simpl; rewrite E; auto.
Qed.

Lemma assoc_replace_col_ne (k k' : string) (s : Series) cs :
  k <> k' -> assoc k' (replace_col k s cs) = assoc k' cs.
Proof.
  intros Hne. induction cs as [|[k0 s0] cs IH]; simpl; [done|].
  destruct (String.eqb k k0) eqn:E; simpl.
  - apply String.eqb_eq in E. subst k0.
    destruct (String.eqb k' k) eqn:E'; [|done].
    apply String.eqb_eq in E'. congruence.
  - now rewrite IH.
Qed.

Lemma assoc_app_new {A} (k k' : string) (s : A) cs :
  assoc k' (cs ++ [(k, s)]) =
  match assoc k' cs with
  | Some x => Some x
  | None => if String.eqb k' k then Some s else None
  end.
Proof.
  induction cs as [|[k0 s0] cs IH]; simpl; [done|].
  destruct (String.eqb k' k0); [done | exact IH].
Qed.

Lemma map_fst_replace_col (k : string) (s : Series) cs :
  map fst (replace_col k s cs) = map fst cs.
Proof.
  induction cs as [|[k0 s0] cs IH]; simpl; [done|].
  destruct (String.eqb k k0); simpl; congruence.
Qed.

Lemma column_setitem_eq (d : DataFrame) (k : string) (s : Series) :
  column (setitem d k s) k = s.
Proof.
  unfold column, setitem, has_col, columns.
  destruct (mem k (map fst (cols d))) eqn:E; simpl.
  - now rewrite assoc_replace_col_eq.
  - rewrite assoc_app_new. apply mem_map_fst_false in E. rewrite E.
    now rewrite String.eqb_refl.
Qed.

Lemma assoc_setitem_ne (d : DataFrame) (k k' : string) (s : Series) :
  k <> k' -> assoc k' (cols (setitem d k s)) = assoc k' (cols d).
Proof.
  intros Hne. unfold setitem. destruct (has_col k d); simpl.
  - now apply assoc_replace_col_ne.
  - rewrite assoc_app_new. destruct (assoc k' (cols d)); [done|].
    destruct (String.eqb k' k) eqn:E; [|done].
    apply String.eqb_eq in E. congruence.
Qed.

Lemma column_setitem_ne (d : DataFrame) (k k' : string) (s : Series) :
  k <> k' -> column (setitem d k s) k' = column d k'.
Proof. intros H. unfold column. now rewrite assoc_setitem_ne. Qed.

Lemma has_col_setitem_eq (d : DataFrame) (k : string) (s : Series) :
  has_col k (setitem d k s) = true.
Proof.
  unfold has_col at 1, columns, setitem.
  destruct (has_col k d) eqn:E; simpl.
  - now rewrite map_fst_replace_col.
  - apply mem_map_fst. exists s. rewrite assoc_app_new.
    unfold has_col, columns in E. apply mem_map_fst_false in E. rewrite E.
    now rewrite String.eqb_refl.
Qed.

Lemma has_col_setitem_ne (d : DataFrame) (k k' : string) (s : Series) :
  k <> k' -> has_col k' (setitem d k s) = has_col k' d.
Proof.
  intros Hne. unfold has_col, columns.
  destruct (mem k' (map fst (cols d))) eqn:E.
  - apply mem_map_fst in E as [x E]. apply mem_map_fst. exists x.
    now rewrite assoc_setitem_ne.
  - apply mem_map_fst_false in E. apply mem_map_fst_false.
    now rewrite assoc_setitem_ne.
Qed.

Lemma index_setitem (d : DataFrame) (k : string) (s : Series) :
  index (setitem d k s) = index d.
Proof. unfold setitem. now destruct (has_col k d). Qed.

Lemma cell_column (d : DataFrame) (k : string) (i : nat) :
  cell d k i = column d k !! i.
Proof. unfold cell, column. now destruct (assoc k (cols d)). Qed.

(** ** Running [clean_data] on a store *)

Lemma run_bind {A B} (m : M A) (k : A -> M B) (σ : store) :
  (m ≫= k) σ =
  match m σ with
  | (Ok a, σ') => k a σ'
  | (Raise e, σ') => (Raise e, σ')
  end.
Proof. reflexivity. Qed.

Lemma run_deref (σ : store) (r : ref) (d : DataFrame) :
  σ !! r = Some d -> deref r σ = (Ok d, σ).
Proof. unfold deref. now intros ->. Qed.

Lemma run_deref_last (τ : store) (d : DataFrame) :
  deref (length τ) (τ ++ [d]) = (Ok d, τ ++ [d]).
Proof. apply run_deref. now apply list_lookup_middle. Qed.

Lemma run_getitem_last (τ : store) (d : DataFrame) (k : string) :
  getitem_ref (length τ) k (τ ++ [d]) = (getitem d k, τ ++ [d]).
Proof.
  unfold getitem_ref. rewrite run_bind, run_deref_last. reflexivity.
Qed.

Lemma run_setitem_last (τ : store) (d : DataFrame) (k : string) (s : Series) :
  setitem_ref (length τ) k s (τ ++ [d]) = (Ok tt, τ ++ [setitem d k s]).
Proof.
  unfold setitem_ref. rewrite run_bind, run_deref_last. unfold assign.
  f_equal. rewrite insert_app_r_alt by lia. now rewrite Nat.sub_diag.
Qed.

Lemma run_new_last (τ : store) (d d' : DataFrame) :
  new d' (τ ++ [d]) = (Ok (length (τ ++ [d])), (τ ++ [d]) ++ [d']).
Proof. reflexivity. Qed.

Section Run.

Variable pandas : pandas_version.
Variable py_repr : pyval -> string.

(** The coordinate block on the copy: it cannot raise, and it leaves
    [extract_coords] of the copy in its place. *)
Lemma run_extract_coords (τ : store) (d : DataFrame) :
  (if has_col "coord_geo" d then
     try_except
       (s ← getitem_ref (length τ) "coord_geo";
        _ ← setitem_ref (length τ) "lat" (apply lat_of s);
        s ← getitem_ref (length τ) "coord_geo";
        setitem_ref (length τ) "lon" (apply lon_of s))
       (fun _ => mret tt)
   else mret tt) (τ ++ [d]) = (Ok tt, τ ++ [extract_coords d]).
Proof.
  unfold extract_coords. destruct (has_col "coord_geo" d) eqn:Hc; [|reflexivity].
  unfold try_except.
  rewrite run_bind, run_getitem_last, (getitem_has_col _ _ Hc).
  rewrite run_bind, run_setitem_last.
  rewrite run_bind, run_getitem_last, getitem_has_col
    by (rewrite has_col_setitem_ne; [exact Hc | discriminate]).
  now rewrite run_setitem_last.
Qed.

Lemma run_standardise (τ : store) (d : DataFrame) :
  (d0 ← deref (length τ);
   _ ← (if has_col "Tarif" d0 then
          s ← getitem_ref (length τ) "Tarif";
          setitem_ref (length τ) "Tarif" (fillna (VStr "Inconnu") s)
        else
          setitem_ref (length τ) "Tarif" (broadcast d0 (VStr "Inconnu")));
   d1 ← deref (length τ);
   _ ← (if has_col "Ligne" d1 then
          s ← getitem_ref (length τ) "Ligne";
          setitem_ref (length τ) "Ligne" (astype_str pandas py_repr s)
        else
          setitem_ref (length τ) "Ligne" (broadcast d1 (VStr "Inconnue")));
   d2 ← deref (length τ);
   _ ← setitem_ref (length τ) "color" (broadcast d2 (VStr "#FF0000"));
   mret (length τ)) (τ ++ [d])
  = (Ok (length τ), τ ++ [standardise pandas py_repr d]).
Proof.
  unfold standardise.
  rewrite run_bind, run_deref_last, run_bind.
  destruct (has_col "Tarif" d) eqn:Ht.
  - rewrite run_bind, run_getitem_last, (getitem_has_col _ _ Ht), run_setitem_last.
    rewrite run_bind, run_deref_last, run_bind.
    set (d1 := setitem d "Tarif" _).
    destruct (has_col "Ligne" d1) eqn:Hl.
    + rewrite run_bind, run_getitem_last, (getitem_has_col _ _ Hl), run_setitem_last.
      now rewrite run_bind, run_deref_last, run_bind, run_setitem_last.
    + rewrite run_setitem_last.
      now rewrite run_bind, run_deref_last, run_bind, run_setitem_last.
  - rewrite run_setitem_last.
    rewrite run_bind, run_deref_last, run_bind.
    set (d1 := setitem d "Tarif" _).
    destruct (has_col "Ligne" d1) eqn:Hl.
    + rewrite run_bind, run_getitem_last, (getitem_has_col _ _ Hl), run_setitem_last.
      now rewrite run_bind, run_deref_last, run_bind, run_setitem_last.
    + rewrite run_setitem_last.
      now rewrite run_bind, run_deref_last, run_bind, run_setitem_last.
Qed.

(** What a call of [clean_data] does to the store: nothing on an empty
    frame; otherwise it adds the copy (with the coordinates extracted in
    place), then, unless [dropna] raises, the frame without the rows that
    have no coordinates and the renamed, standardised frame it returns. *)
Lemma clean_data_run (σ : store) (r : ref) (d : DataFrame) :
  σ !! r = Some d ->
  clean_data pandas py_repr r σ =
  if empty d then (Ok r, σ) else
  match dropna ["lat"; "lon"] (extract_coords d) with
  | Raise e => (Raise e, σ ++ [extract_coords d])
  | Ok d1 =>
      (Ok (S (S (length σ))),
       σ ++ [extract_coords d; d1; standardise pandas py_repr (rename mapping d1)])
  end.
Proof.
  intros Hr. unfold clean_data.
  rewrite run_bind, (run_deref _ _ _ Hr).
  destruct (empty d); [reflexivity|].
  rewrite run_bind. unfold copy at 1. rewrite run_bind, (run_deref _ _ _ Hr).
  unfold new at 1.
  rewrite run_bind, run_deref_last.
  rewrite run_bind, run_extract_coords.
  rewrite run_bind, run_deref_last.
  rewrite run_bind. unfold lift at 1.
  destruct (dropna ["lat"; "lon"] (extract_coords d)) as [d1|e]; [|reflexivity].
  rewrite run_bind, run_new_last.
  rewrite run_bind, run_deref_last.
  rewrite run_bind, run_new_last.
  rewrite run_standardise.
  f_equal.
  - f_equal. rewrite !length_app. simpl. lia.
  - now rewrite <- !app_assoc.
Qed.

End Run.

(** [clean_data] called on a frame that is alone in the store returns what
    the step-by-step reading computes. *)
Lemma clean_table_eq (pandas : pandas_version) (py_repr : pyval -> string) (d : DataFrame) :
  clean_table pandas py_repr d = clean_frame pandas py_repr d.
Proof.
  unfold clean_table, clean_frame.
  rewrite (clean_data_run pandas py_repr [d] 0 d eq_refl).
  destruct (empty d); [reflexivity|].
  destruct (dropna ["lat"; "lon"] (extract_coords d)); reflexivity.
Qed.

(** ** The frame passed to [clean_data] *)

(** C10: [clean_data] leaves its argument as it was: whatever frame the
    argument refers to before the call, it refers to the same frame after
    it, and so does every other reference of the store. *)
Theorem clean_data_leaves_argument
    (pandas : pandas_version) (py_repr : pyval -> string) (σ : store) (df : ref) (raw : DataFrame) :
  σ !! df = Some raw ->
  snd (clean_data pandas py_repr df σ) !! df = Some raw /\
  forall (r : ref) (d : DataFrame),
    σ !! r = Some d -> snd (clean_data pandas py_repr df σ) !! r = Some d.
Proof.
  intros Hdf.
  assert (forall (r : ref) (d : DataFrame),
    σ !! r = Some d -> snd (clean_data pandas py_repr df σ) !! r = Some d) as Hall.
  { intros r d Hr. rewrite (clean_data_run pandas py_repr σ df raw Hdf).
    destruct (empty raw); [exact Hr|].
    destruct (dropna ["lat"; "lon"] (extract_coords raw)); simpl;
      now apply lookup_app_l_Some. }
  split; [now apply Hall | exact Hall].
Qed.

Lemma clean_data_leaves_argument_witness :
  let raw := DataFrame_of_records [paris_record] in
  [raw] !! 0 = Some raw /\
  snd (clean_data Pandas3 no_repr 0 [raw]) !! 0 = Some raw.
Proof.
  intros raw. split; [reflexivity|].
  exact (proj1 (clean_data_leaves_argument Pandas3 no_repr [raw] 0 raw eq_refl)).
Defined.

(** ** Frames without a coordinate column *)

(** C1: [clean_data] does not always return.  On a frame that is not empty
    and has none of the columns coord_geo, lat and lon, the guard of line 40
    skips the extraction and [dropna] of line 53 raises [KeyError] for the
    two labels it does not find; nothing catches it. *)
Theorem clean_data_raises_without_coord_geo
    (pandas : pandas_version) (py_repr : pyval -> string) (raw : DataFrame) :
  empty raw = false ->
  has_col "coord_geo" raw = false ->
  has_col "lat" raw = false ->
  has_col "lon" raw = false ->
  clean_table pandas py_repr raw = Raise (KeyError (Labels ["lat"; "lon"])).
Proof.
  intros He Hc Hlat Hlon.
  rewrite clean_table_eq. unfold clean_frame, extract_coords, dropna.
  rewrite He, Hc. simpl. now rewrite Hlat, Hlon.
Qed.

Lemma clean_data_raises_without_coord_geo_witness :
  clean_table Pandas3 no_repr (DataFrame_of_records [ligne4_record])
  = Raise (KeyError (Labels ["lat"; "lon"])).
Proof.
  apply clean_data_raises_without_coord_geo; reflexivity.
Defined.

(** C2: on [{"ligne":"4"}] the call of [clean_data] ends in that
    [KeyError]; no table, with or without rows, is returned. *)
Theorem ligne4_scenario_raises (pandas : pandas_version) (py_repr : pyval -> string) :
  clean_table pandas py_repr (DataFrame_of_records [ligne4_record])
  = Raise (KeyError (Labels ["lat"; "lon"]))
  /\ forall df : DataFrame,
       clean_table pandas py_repr (DataFrame_of_records [ligne4_record]) <> Ok df.
Proof.
  assert (clean_table pandas py_repr (DataFrame_of_records [ligne4_record])
          = Raise (KeyError (Labels ["lat"; "lon"]))) as E by reflexivity.
  split; [exact E | intros df; rewrite E; discriminate].
Qed.

(** ** The one-record scenario *)

(** C5: cleaning
    [{"coord_geo":[48.85,2.35],"ligne":"1","tarif_gratuit_payant":"Payant"}]
    gives one row with Ligne "1", Tarif "Payant", lat 48.85, lon 2.35 and
    color "#FF0000" (the row also keeps its coord_geo cell). *)
Theorem paris_scenario (pandas : pandas_version) (py_repr : pyval -> string) :
  exists df : DataFrame,
    clean_table pandas py_repr (DataFrame_of_records [paris_record]) = Ok df /\
    len df = 1 /\
    columns df = ["coord_geo"; "Ligne"; "Tarif"; "lat"; "lon"; "color"] /\
    cell df "Ligne" 0 = Some (VStr "1") /\
    cell df "Tarif" 0 = Some (VStr "Payant") /\
    cell df "lat" 0 = Some (VFloat 48.85) /\
    cell df "lon" 0 = Some (VFloat 2.35) /\
    cell df "color" 0 = Some (VStr "#FF0000").
Proof.
  eexists. split; [reflexivity|]. repeat split.
Qed.

(** ** The coordinate columns *)

Lemma column_extract_coords (d : DataFrame) :
  has_col "coord_geo" d = true ->
  column (extract_coords d) "coord_geo" = column d "coord_geo" /\
  column (extract_coords d) "lat" = map lat_of (column d "coord_geo") /\
  column (extract_coords d) "lon" = map lon_of (column d "coord_geo").
Proof.
  intros Hc. unfold extract_coords. rewrite Hc. unfold apply.
  repeat split.
  - now rewrite !column_setitem_ne by discriminate.
  - rewrite column_setitem_ne by discriminate. apply column_setitem_eq.
  - rewrite column_setitem_eq. now rewrite column_setitem_ne by discriminate.
Qed.

Lemma select_map {A B} (f : A -> B) (m : list bool) (xs : list A) :
  select m (map f xs) = map f (select m xs).
Proof.
  revert xs. induction m as [|b m IH]; intros [|x xs]; simpl; try done.
  destruct b; simpl; now rewrite IH.
Qed.

Lemma assoc_map_snd {A B} (f : A -> B) (k : string) (cs : list (string * A)) :
  assoc k (map (fun c => (fst c, f (snd c))) cs) = f <$> assoc k cs.
Proof.
  induction cs as [|[k' s'] cs IH]; simpl; [done|].
  now destruct (String.eqb k k').
Qed.

Lemma column_select_rows (m : list bool) (d : DataFrame) (k : string) :
  column (select_rows m d) k = select m (column d k).
Proof.
  unfold column, select_rows. simpl. rewrite assoc_map_snd.
  destruct (assoc k (cols d)); simpl; [reflexivity | now destruct m].
Qed.

(** A label that [mapping] neither renames nor produces names the same
    column before and after [rename]. *)
Lemma assoc_rename_other (mp : list (string * string)) (k : string)
    (cs : list (string * Series)) :
  assoc k mp = None ->
  (forall a, assoc a mp <> Some k) ->
  assoc k (map (fun c => (default (fst c) (assoc (fst c) mp), snd c)) cs)
  = assoc k cs.
Proof.
  intros Hsrc Htgt. induction cs as [|[k0 s0] cs IH]; simpl; [done|].
  rewrite IH. destruct (assoc k0 mp) as [k1|] eqn:E0; simpl; [|done].
  destruct (String.eqb k k1) eqn:E1.
  - apply String.eqb_eq in E1. subst k1. now destruct (Htgt k0).
  - destruct (String.eqb k k0) eqn:E2; [|done].
    apply String.eqb_eq in E2. subst k0. congruence.
Qed.

Lemma mapping_targets (a k : string) :
  assoc a mapping = Some k ->
  k = "Ligne" \/ k = "Station" \/ k = "Tarif" \/ k = "Accessibilité" \/ k = "Zone".
Proof.
  unfold mapping. simpl.
  repeat (destruct (String.eqb a _); [intros [= <-]; tauto|]).
  discriminate.
Qed.

Lemma column_rename_coord (d : DataFrame) (k : string) :
  k = "coord_geo" \/ k = "lat" \/ k = "lon" ->
  column (rename mapping d) k = column d k.
Proof.
  intros Hk. unfold column, rename. cbn [cols].
  rewrite assoc_rename_other; [done | |].
  - destruct Hk as [-> | [-> | ->]]; reflexivity.
  - intros a Ha. apply mapping_targets in Ha.
    destruct Hk as [-> | [-> | ->]]; intuition discriminate.
Qed.

Lemma column_standardise (pandas : pandas_version) (py_repr : pyval -> string) (d : DataFrame) (k : string) :
  k <> "Tarif" -> k <> "Ligne" -> k <> "color" ->
  column (standardise pandas py_repr d) k = column d k.
Proof.
  intros Ht Hl Hc. unfold standardise.
  rewrite column_setitem_ne by congruence.
  destruct (has_col "Ligne" _); rewrite column_setitem_ne by congruence;
    destruct (has_col "Tarif" d); now rewrite column_setitem_ne by congruence.
Qed.

(** In the table that [clean_data] returns, the coordinate columns are the
    two projections of the coord_geo column, row by row. *)
Lemma cleaned_coord_columns (pandas : pandas_version) (py_repr : pyval -> string) (raw df : DataFrame) :
  empty raw = false ->
  has_col "coord_geo" raw = true ->
  clean_table pandas py_repr raw = Ok df ->
  column df "lat" = map lat_of (column df "coord_geo") /\
  column df "lon" = map lon_of (column df "coord_geo").
Proof.
  intros He Hc. rewrite clean_table_eq. unfold clean_frame. rewrite He.
  destruct (dropna _ _) as [d1|e] eqn:Hd; simpl; [|discriminate].
  intros [= <-]. unfold dropna in Hd.
  destruct (List.filter _ _); [|discriminate]. injection Hd as <-.
  rewrite !column_standardise by discriminate.
  rewrite !column_rename_coord by tauto.
  rewrite !column_select_rows.
  destruct (column_extract_coords raw Hc) as (-> & -> & ->).
  now rewrite !select_map.
Qed.

Lemma cell_holds_lookup (f : pyval -> pyval) (s : list pyval) (i : nat) (x a : pyval) :
  s !! i = Some x ->
  (if isna a then isna (f x) = true else f x = a) ->
  cell_holds (map f s !! i) a.
Proof.
  intros Hx Ha. exists (f x). split; [|exact Ha].
  now rewrite list_lookup_fmap, Hx.
Qed.

(** C4: when the frame has a coord_geo column, the working copy -- the
    object that [clean_data] allocates first -- holds, after the call, for
    every row whose coord_geo cell is a two-element list [[a, b]], [a] in
    lat and [b] in lon, and for every row whose coord_geo cell is anything
    else, a missing value in both.  The rows of the returned table carry
    the same two elements. *)
Theorem coordinates_assigned
    (pandas : pandas_version) (py_repr : pyval -> string)
    (σ : store) (df : ref) (raw : DataFrame) :
  σ !! df = Some raw ->
  empty raw = false ->
  has_col "coord_geo" raw = true ->
  (exists copy : DataFrame,
     snd (clean_data pandas py_repr df σ) !! length σ = Some copy /\
     forall (i : nat) (x : pyval),
       cell raw "coord_geo" i = Some x ->
       (forall a b, x = VList [a; b] ->
          cell_holds (cell copy "lat" i) a /\ cell_holds (cell copy "lon" i) b) /\
       ((forall a b, x <> VList [a; b]) ->
          (exists v, cell copy "lat" i = Some v /\ isna v = true) /\
          (exists v, cell copy "lon" i = Some v /\ isna v = true)))
  /\
  (forall cleaned : DataFrame,
     clean_table pandas py_repr raw = Ok cleaned ->
     forall (i : nat) (a b : pyval),
       cell cleaned "coord_geo" i = Some (VList [a; b]) ->
       cell_holds (cell cleaned "lat" i) a /\ cell_holds (cell cleaned "lon" i) b).
Proof.
  intros Hdf He Hc. split.
  - exists (extract_coords raw). split.
    + rewrite (clean_data_run pandas py_repr σ df raw Hdf), He.
      destruct (dropna _ _); simpl; now apply list_lookup_middle.
    + intros i x. rewrite !cell_column.
      destruct (column_extract_coords raw Hc) as (_ & -> & ->).
      intros Hx. split.
      * intros a b ->.
        split; eapply cell_holds_lookup; try exact Hx; simpl;
          now destruct (isna _).
      * intros Hnot. rewrite !list_lookup_fmap, Hx. simpl.
        assert (lat_of x = VNone /\ lon_of x = VNone) as [-> ->].
        { destruct x as [| | | | | | [|a [|b [|c l]]] |]; try done.
          now destruct (Hnot a b). }
        split; eexists; split; reflexivity.
  - intros cleaned Hclean i a b. rewrite !cell_column.
    destruct (cleaned_coord_columns pandas py_repr raw cleaned He Hc Hclean)
      as (-> & ->).
    intros Hx.
    split; eapply cell_holds_lookup; try exact Hx; simpl; now destruct (isna _).
Qed.

Lemma coordinates_assigned_witness :
  let raw := DataFrame_of_records [paris_record; ligne4_record] in
  exists copy : DataFrame,
    snd (clean_data Pandas3 no_repr 0 [raw]) !! 1 = Some copy /\
    cell_holds (cell copy "lat" 0) (VFloat 48.85) /\
    cell_holds (cell copy "lon" 0) (VFloat 2.35) /\
    (exists v, cell copy "lat" 1 = Some v /\ isna v = true) /\
    (exists v, cell copy "lon" 1 = Some v /\ isna v = true).
Proof.
  intros raw.
  destruct (coordinates_assigned Pandas3 no_repr [raw] 0 raw eq_refl eq_refl eq_refl)
    as [(copy & Hcopy & Hrows) _].
  exists copy. split; [exact Hcopy|].
  destruct (Hrows 0 (VList [VFloat 48.85; VFloat 2.35]) eq_refl) as [H0 _].
  destruct (H0 _ _ eq_refl) as [Hlat0 Hlon0].
  destruct (Hrows 1 VNaN eq_refl) as [_ H1].
  destruct H1 as [Hlat1 Hlon1]; [discriminate|].
  repeat split; assumption.
Defined.

(** ** Rectangular frames *)

Lemma rectangular_spec (d : DataFrame) :
  rectangular d = true <->
  forall k s, In (k, s) (cols d) -> length s = length (index d).
Proof.
  unfold rectangular. rewrite forallb_forall. split.
  - intros H k s Hin. apply Nat.eqb_eq. exact (H (k, s) Hin).
  - intros H [k s] Hin. apply Nat.eqb_eq. exact (H k s Hin).
Qed.

Lemma assoc_In {A} (k : string) (x : A) (cs : list (string * A)) :
  assoc k cs = Some x -> In (k, x) cs.
Proof.
  induction cs as [|[k' s'] cs IH]; simpl; [discriminate|].
  destruct (String.eqb k k') eqn:E.
  - apply String.eqb_eq in E. subst. intros [= ->]. now left.
  - intros H. right. auto.
Qed.

Lemma length_column (d : DataFrame) (k : string) :
  rectangular d = true -> has_col k d = true -> length (column d k) = len d.
Proof.
  intros Hr Hc. unfold has_col, columns in Hc. apply mem_map_fst in Hc as [s Hs].
  unfold column. rewrite Hs. simpl.
  apply (proj1 (rectangular_spec d) Hr k). now apply assoc_In.
Qed.

Lemma In_replace_col (k : string) (s : list pyval) cs k' s' :
  In (k', s') (replace_col k s cs) -> In (k', s') cs \/ s' = s.
Proof.
  induction cs as [|[k0 s0] cs IH]; simpl; [tauto|].
  destruct (String.eqb k k0); simpl.
  - intros [[= <- <-] | H]; auto.
  - intros [H | H]; [auto | destruct (IH H); auto].
Qed.

Lemma rectangular_setitem (d : DataFrame) (k : string) (s : list pyval) :
  rectangular d = true -> length s = len d -> rectangular (setitem d k s) = true.
Proof.
  intros Hr Hs. apply rectangular_spec. intros k' s' Hin.
  rewrite index_setitem. pose proof (proj1 (rectangular_spec d) Hr) as Hd.
  unfold setitem in Hin. destruct (has_col k d); simpl in Hin.
  - apply In_replace_col in Hin as [Hin | ->]; [eauto | exact Hs].
  - apply in_app_or in Hin as [Hin | [[= <- <-] | []]]; [eauto | exact Hs].
Qed.

Lemma length_select_same {A B} (m : list bool) (xs : list A) (ys : list B) :
  length xs = length ys -> length (select m xs) = length (select m ys).
Proof.
  revert xs ys. induction m as [|b m IH]; intros [|x xs] [|y ys]; simpl;
    try done.
  intros [= H]. destruct b; simpl; auto.
Qed.

Lemma rectangular_select_rows (m : list bool) (d : DataFrame) :
  rectangular d = true -> rectangular (select_rows m d) = true.
Proof.
  intros Hr. apply rectangular_spec. intros k s. unfold select_rows. simpl.
  rewrite in_map_iff. intros ([k0 s0] & [= <- <-] & Hin). simpl.
  apply length_select_same. exact (proj1 (rectangular_spec d) Hr k0 s0 Hin).
Qed.

Lemma rectangular_rename (mp : list (string * string)) (d : DataFrame) :
  rectangular d = true -> rectangular (rename mp d) = true.
Proof.
  intros Hr. apply rectangular_spec. intros k s. unfold rename. simpl.
  rewrite in_map_iff. intros ([k0 s0] & [= <- <-] & Hin). simpl.
  exact (proj1 (rectangular_spec d) Hr k0 s0 Hin).
Qed.

Lemma rectangular_extract_coords (d : DataFrame) :
  rectangular d = true -> rectangular (extract_coords d) = true.
Proof.
  intros Hr. unfold extract_coords.
  destruct (has_col "coord_geo" d) eqn:Hc; [|exact Hr].
  assert (rectangular (setitem d "lat" (apply lat_of (column d "coord_geo"))) = true)
    as Hr1.
  { apply rectangular_setitem; [exact Hr|].
    unfold apply. rewrite length_map. now apply length_column. }
  apply rectangular_setitem; [exact Hr1|].
  unfold apply. rewrite length_map. apply length_column; [exact Hr1|].
  rewrite has_col_setitem_ne by discriminate. exact Hc.
Qed.

Lemma length_broadcast (d : DataFrame) (v : pyval) :
  length (broadcast d v) = len d.
Proof. unfold broadcast. apply length_map. Qed.

Lemma rectangular_standardise (pandas : pandas_version) (py_repr : pyval -> string) (d : DataFrame) :
  rectangular d = true -> rectangular (standardise pandas py_repr d) = true.
Proof.
  intros Hr. unfold standardise.
  set (d1 := if has_col "Tarif" d then _ else _).
  assert (rectangular d1 = true) as Hr1.
  { subst d1. destruct (has_col "Tarif" d) eqn:Ht;
      apply rectangular_setitem; try exact Hr.
    - unfold fillna. rewrite length_map. now apply length_column.
    - apply length_broadcast. }
  set (d2 := if has_col "Ligne" d1 then _ else _).
  assert (rectangular d2 = true) as Hr2.
  { subst d2. destruct (has_col "Ligne" d1) eqn:Hl;
      apply rectangular_setitem; try exact Hr1.
    - unfold astype_str. rewrite length_map. now apply length_column.
    - apply length_broadcast. }
  apply rectangular_setitem; [exact Hr2 | apply length_broadcast].
Qed.

(** The table that [clean_data] returns, in terms of the frame that
    [dropna] keeps. *)
Lemma clean_table_Ok (pandas : pandas_version) (py_repr : pyval -> string) (raw df : DataFrame) :
  empty raw = false ->
  clean_table pandas py_repr raw = Ok df ->
  exists kept : DataFrame,
    dropna ["lat"; "lon"] (extract_coords raw) = Ok kept /\
    kept = select_rows (notna_mask (extract_coords raw) ["lat"; "lon"])
                       (extract_coords raw) /\
    df = standardise pandas py_repr (rename mapping kept).
Proof.
  intros He. rewrite clean_table_eq. unfold clean_frame. rewrite He.
  destruct (dropna _ _) as [d1|e] eqn:Hd; simpl; [|discriminate].
  intros [= <-]. exists d1. repeat split.
  unfold dropna in Hd. destruct (List.filter _ _); [|discriminate].
  now injection Hd as <-.
Qed.

Lemma cleaned_rectangular (pandas : pandas_version) (py_repr : pyval -> string) (raw df : DataFrame) :
  rectangular raw = true ->
  clean_table pandas py_repr raw = Ok df ->
  rectangular df = true.
Proof.
  intros Hr Hclean. destruct (empty raw) eqn:He.
  - rewrite clean_table_eq in Hclean. unfold clean_frame in Hclean.
    rewrite He in Hclean. now injection Hclean as <-.
  - destruct (clean_table_Ok pandas py_repr raw df He Hclean) as (kept & _ & -> & ->).
    apply rectangular_standardise, rectangular_rename, rectangular_select_rows.
    now apply rectangular_extract_coords.
Qed.

(** ** Tarif and Ligne *)

Lemma index_standardise (pandas : pandas_version) (py_repr : pyval -> string) (d : DataFrame) :
  index (standardise pandas py_repr d) = index d.
Proof.
  unfold standardise. rewrite index_setitem.
  destruct (has_col "Ligne" _); rewrite index_setitem;
    destruct (has_col "Tarif" d); now rewrite index_setitem.
Qed.

Lemma column_standardise_Tarif (pandas : pandas_version) (py_repr : pyval -> string) (d : DataFrame) :
  column (standardise pandas py_repr d) "Tarif" =
  if has_col "Tarif" d then fillna (VStr "Inconnu") (column d "Tarif")
  else broadcast d (VStr "Inconnu").
Proof.
  unfold standardise. rewrite column_setitem_ne by discriminate.
  destruct (has_col "Ligne" _); rewrite column_setitem_ne by discriminate;
    destruct (has_col "Tarif" d); now rewrite column_setitem_eq.
Qed.

Lemma column_standardise_Ligne (pandas : pandas_version) (py_repr : pyval -> string) (d : DataFrame) :
  column (standardise pandas py_repr d) "Ligne" =
  if has_col "Ligne" d then astype_str pandas py_repr (column d "Ligne")
  else broadcast d (VStr "Inconnue").
Proof.
  unfold standardise. rewrite column_setitem_ne by discriminate.
  set (d1 := if has_col "Tarif" d then _ else _).
  assert (has_col "Ligne" d1 = has_col "Ligne" d) as Hh
    by (subst d1; destruct (has_col "Tarif" d);
        now rewrite has_col_setitem_ne by discriminate).
  assert (column d1 "Ligne" = column d "Ligne") as Hc
    by (subst d1; destruct (has_col "Tarif" d);
        now rewrite column_setitem_ne by discriminate).
  assert (index d1 = index d) as Hi
    by (subst d1; destruct (has_col "Tarif" d); now rewrite index_setitem).
  rewrite Hh. destruct (has_col "Ligne" d); rewrite column_setitem_eq.
  - now rewrite Hc.
  - unfold broadcast. now rewrite Hi.
Qed.

Lemma lookup_broadcast (d : DataFrame) (v : pyval) (i : nat) :
  i < len d -> broadcast d v !! i = Some v.
Proof.
  unfold broadcast, len. intros Hi. rewrite list_lookup_fmap.
  destruct (lookup_lt_is_Some_2 (index d) i Hi) as [x ->]. reflexivity.
Qed.

Lemma lookup_column (d : DataFrame) (k : string) (i : nat) :
  rectangular d = true -> has_col k d = true -> i < len d ->
  exists v, cell d k i = Some v.
Proof.
  intros Hr Hc Hi. rewrite cell_column.
  apply lookup_lt_is_Some_2. now rewrite length_column.
Qed.

Lemma columns_select_rows (m : list bool) (d : DataFrame) :
  columns (select_rows m d) = columns d.
Proof. unfold columns, select_rows. simpl. now rewrite map_map. Qed.

Lemma has_col_select_rows (m : list bool) (d : DataFrame) (k : string) :
  has_col k (select_rows m d) = has_col k d.
Proof. unfold has_col. now rewrite columns_select_rows. Qed.

(** A column that [mapping] renames is found under its new label, when
    the frame has no column of that label already. *)
Lemma assoc_rename_source (src tgt : string) (cs : list (string * list pyval)) :
  (src = "tarif_gratuit_payant" /\ tgt = "Tarif") \/ (src = "ligne" /\ tgt = "Ligne") ->
  mem tgt (map fst cs) = false ->
  assoc tgt (map (fun c => (default (fst c) (assoc (fst c) mapping), snd c)) cs)
  = assoc src cs.
Proof.
  intros Hp. induction cs as [|[k0 s0] cs IH]; [reflexivity|].
  cbn [map fst snd mem existsb]. intros Hm.
  apply orb_false_elim in Hm as [Hk0 Hm]. specialize (IH Hm).
  cbn [assoc]. rewrite IH. clear IH.
  replace (String.eqb tgt (default k0 (assoc k0 mapping))) with (String.eqb src k0);
    [reflexivity|].
  unfold mapping. cbn [assoc].
  repeat match goal with
  | |- context [if String.eqb k0 ?c then _ else _] =>
      let E := fresh "E" in
      destruct (String.eqb k0 c) eqn:E;
      [apply String.eqb_eq in E; subst k0;
       destruct Hp as [[-> ->] | [-> ->]]; reflexivity|]
  end.
  cbn [default]. rewrite Hk0.
  destruct Hp as [[-> ->] | [-> ->]]; rewrite String.eqb_sym; assumption.
Qed.

Lemma has_col_extract_coords_other (d : DataFrame) (k : string) :
  k <> "lat" -> k <> "lon" -> has_col k (extract_coords d) = has_col k d.
Proof.
  intros Hlat Hlon. unfold extract_coords.
  destruct (has_col "coord_geo" d); [|reflexivity].
  now rewrite !has_col_setitem_ne by congruence.
Qed.

Lemma lookup_column_or_absent (d : DataFrame) (k : string) (i : nat) :
  rectangular d = true -> i < len d ->
  if has_col k d then exists v, cell d k i = Some v else cell d k i = None.
Proof.
  intros Hr Hi. destruct (has_col k d) eqn:Hc.
  - now apply lookup_column.
  - unfold cell. unfold has_col, columns in Hc.
    apply mem_map_fst_false in Hc. now rewrite Hc.
Qed.

(** C6, as the code has it: when the raw frame is not empty (an empty one
    is returned as it is, with whatever rows and columns it has), every
    row of the returned table has a Tarif that is not missing and a Ligne
    cell.  Tarif is the provider's value, or "Inconnu" where that value is
    missing or there is no such column; Ligne is [str] of the provider's
    value where there is one, and "Inconnue" when there is no such column.
    The provider's values are those of the frame that [dropna] keeps, under
    the labels Tarif and Ligne once renamed; they are the fields
    tarif_gratuit_payant and ligne when the provider sends no field already
    named Tarif or Ligne. *)
Theorem tarif_ligne_present
    (pandas : pandas_version) (py_repr : pyval -> string) (raw df : DataFrame) :
  rectangular raw = true ->
  empty raw = false ->
  clean_table pandas py_repr raw = Ok df ->
  exists kept : DataFrame,
    dropna ["lat"; "lon"] (extract_coords raw) = Ok kept /\
    len df = len kept /\
    forall i : nat, i < len df ->
      exists t l : pyval,
        cell df "Tarif" i = Some t /\ isna t = false /\
        cell df "Ligne" i = Some l /\
        t = tarif_of (cell (rename mapping kept) "Tarif" i) /\
        match cell (rename mapping kept) "Ligne" i with
        | Some v => isna v = false -> l = VStr (py_str py_repr v)
        | None => l = VStr "Inconnue"
        end /\
        (has_col "Tarif" raw = false ->
         cell (rename mapping kept) "Tarif" i = cell kept "tarif_gratuit_payant" i) /\
        (has_col "Ligne" raw = false ->
         cell (rename mapping kept) "Ligne" i = cell kept "ligne" i).
Proof.
  intros Hr He Hclean.
  destruct (clean_table_Ok pandas py_repr raw df He Hclean) as (kept & Hd & Hk & ->).
  exists kept. split; [exact Hd|].
  assert (rectangular kept = true) as Hrk.
  { subst kept. apply rectangular_select_rows.
    now apply rectangular_extract_coords. }
  assert (forall k, k <> "lat" -> k <> "lon" -> has_col k kept = has_col k raw) as Hsame.
  { intros k H1 H2. subst kept.
    now rewrite has_col_select_rows, has_col_extract_coords_other. }
  split; [unfold len; now rewrite index_standardise|].
  intros i Hi. set (provided := rename mapping kept).
  assert (rectangular provided = true) as Hrp by now apply rectangular_rename.
  unfold len in Hi. rewrite index_standardise in Hi.
  change (i < len kept) in Hi. assert (i < len provided) as Hip by exact Hi.
  rewrite !cell_column, column_standardise_Tarif, column_standardise_Ligne.
  fold provided.
  (* Tarif *)
  assert (exists t,
    (if has_col "Tarif" provided
     then fillna (VStr "Inconnu") (column provided "Tarif")
     else broadcast provided (VStr "Inconnu")) !! i = Some t /\
    isna t = false /\
    t = tarif_of (column provided "Tarif" !! i)) as (t & Ht & Hna & Hprov).
  { pose proof (lookup_column_or_absent provided "Tarif" i Hrp Hip) as Hcell.
    rewrite cell_column in Hcell.
    destruct (has_col "Tarif" provided) eqn:Hc.
    - destruct Hcell as [v Hv].
      exists (if isna v then VStr "Inconnu" else v).
      unfold fillna. rewrite list_lookup_fmap, Hv. repeat split.
      now destruct (isna v) eqn:E.
    - exists (VStr "Inconnu"). rewrite lookup_broadcast by exact Hip.
      now rewrite Hcell. }
  (* Ligne *)
  assert (exists l,
    (if has_col "Ligne" provided
     then astype_str pandas py_repr (column provided "Ligne")
     else broadcast provided (VStr "Inconnue")) !! i = Some l /\
    match column provided "Ligne" !! i with
    | Some v => isna v = false -> l = VStr (py_str py_repr v)
    | None => l = VStr "Inconnue"
    end) as (l & Hl & Hlprov).
  { pose proof (lookup_column_or_absent provided "Ligne" i Hrp Hip) as Hcell.
    rewrite cell_column in Hcell.
    destruct (has_col "Ligne" provided) eqn:Hc.
    - destruct Hcell as [v Hv].
      exists (astype_str_cell pandas py_repr v).
      unfold astype_str. rewrite list_lookup_fmap, Hv. split; [reflexivity|].
      intros Hv'. unfold astype_str_cell. now rewrite Hv'.
    - exists (VStr "Inconnue"). rewrite lookup_broadcast by exact Hip.
      now rewrite Hcell. }
  exists t, l. split; [exact Ht|]. split; [exact Hna|]. split; [exact Hl|].
  split; [exact Hprov|]. split; [exact Hlprov|].
  split.
  - intros Hraw. f_equal.
    unfold column, provided, rename. cbn [cols].
    rewrite (assoc_rename_source "tarif_gratuit_payant" "Tarif"); [reflexivity|tauto|].
    rewrite <- (Hsame "Tarif") in Hraw by discriminate. exact Hraw.
  - intros Hraw. f_equal.
    unfold column, provided, rename. cbn [cols].
    rewrite (assoc_rename_source "ligne" "Ligne"); [reflexivity|tauto|].
    rewrite <- (Hsame "Ligne") in Hraw by discriminate. exact Hraw.
Qed.

Lemma tarif_ligne_present_witness :
  exists df : DataFrame,
    clean_table Pandas3 no_repr (DataFrame_of_records [paris_record; no_ligne_record])
    = Ok df /\
    len df = 2 /\
    forall i : nat, i < len df ->
      exists t l : pyval,
        cell df "Tarif" i = Some t /\ isna t = false /\
        cell df "Ligne" i = Some l.
Proof.
  eexists. split; [reflexivity|]. split; [reflexivity|]. intros i Hi.
  destruct (tarif_ligne_present Pandas3 no_repr
              (DataFrame_of_records [paris_record; no_ligne_record]) _
              eq_refl eq_refl eq_refl) as (kept & _ & _ & Hrows).
  destruct (Hrows i Hi) as (t & l & Ht & Hna & Hl & _).
  exists t, l. auto.
Defined.

(** A record without any field makes a frame with one row and no column;
    [df.empty] is true of it, [clean_data] returns it untouched, and its
    row has neither Tarif nor Ligne. *)
Lemma fieldless_record_keeps_row_without_tarif :
  clean_table Pandas3 no_repr (DataFrame_of_records [[]]) = Ok (mkDataFrame [0] []) /\
  len (mkDataFrame [0] []) = 1 /\
  cell (mkDataFrame [0] []) "Tarif" 0 = None /\
  cell (mkDataFrame [0] []) "Ligne" 0 = None.
Proof. repeat split. Qed.

(** ** The sidebar filter *)

Lemma mem_insert_sorted (x y : string) (l : list string) :
  mem x (insert_sorted y l) = String.eqb x y || mem x l.
Proof.
  unfold mem. induction l as [|z l IH]; simpl; [done|].
  destruct (String.leb y z); simpl; [done|].
  rewrite IH.
  destruct (String.eqb x y), (String.eqb x z); reflexivity.
Qed.

Lemma mem_sorted (x : string) (l : list string) : mem x (sorted l) = mem x l.
Proof.
  induction l as [|y l IH]; [done|].
  change (sorted (y :: l)) with (insert_sorted y (sorted l)).
  rewrite mem_insert_sorted, IH. reflexivity.
Qed.

Lemma mem_unique_acc (x : string) (seen l : list string) :
  mem x (unique_acc seen l) = mem x l && negb (mem x seen).
Proof.
  revert seen. induction l as [|y l IH]; intros seen; simpl; [done|].
  destruct (mem y seen) eqn:Hy.
  - rewrite IH. destruct (String.eqb x y) eqn:E; [|done].
    apply String.eqb_eq in E. subst y. rewrite Hy. simpl.
    now rewrite andb_false_r.
  - change (String.eqb x y || mem x (unique_acc (y :: seen) l) =
            (String.eqb x y || mem x l) && negb (mem x seen)).
    rewrite IH. simpl. destruct (String.eqb x y) eqn:E; simpl.
    + apply String.eqb_eq in E. subst y. now rewrite Hy.
    + reflexivity.
Qed.

Lemma mem_unique (x : string) (l : list string) : mem x (unique l) = mem x l.
Proof. unfold unique. rewrite mem_unique_acc. simpl. apply andb_true_r. Qed.

Lemma for_each_as_text (texts : list string) :
  for_each as_text (map VStr texts) = Ok texts.
Proof.
  induction texts as [|x texts IH]; simpl; [done|].
  rewrite IH. reflexivity.
Qed.

Lemma select_all {A} (m : list bool) (xs : list A) :
  length xs <= length m -> (forall b, In b m -> b = true) -> select m xs = xs.
Proof.
  revert xs. induction m as [|b m IH]; intros [|x xs]; simpl; try done.
  - lia.
  - intros Hlen Hall. rewrite (Hall b) by auto.
    f_equal. apply IH; [lia | auto].
Qed.

Lemma select_rows_all (m : list bool) (d : DataFrame) :
  rectangular d = true ->
  length m = len d ->
  (forall b, In b m -> b = true) ->
  select_rows m d = d.
Proof.
  intros Hr Hlen Hall. destruct d as [idx cs]. unfold select_rows, len in *.
  simpl in *. f_equal.
  - apply select_all; [lia | exact Hall].
  - pose proof (proj1 (rectangular_spec (mkDataFrame idx cs)) Hr) as Hcs.
    simpl in Hcs. clear Hr.
    induction cs as [|[k s] cs IH]; simpl; [done|]. f_equal.
    + f_equal. apply select_all; [|exact Hall].
      rewrite (Hcs k s) by now left. lia.
    + apply IH. intros k' s' Hin. apply (Hcs k' s'). now right.
Qed.

Lemma astype_str_cell_text_or_missing (pandas : pandas_version)
    (py_repr : pyval -> string) (v : pyval) :
  (exists x, astype_str_cell pandas py_repr v = VStr x) \/
  isna (astype_str_cell pandas py_repr v) = true.
Proof.
  unfold astype_str_cell. destruct (isna v); [|eauto].
  destruct pandas; [eauto | now right].
Qed.

(** After the standardisation step a cell of the Ligne column is text, or
    missing. *)
Lemma standardise_Ligne_text_or_missing (pandas : pandas_version)
    (py_repr : pyval -> string) (d : DataFrame) :
  Forall (fun v => (exists x, v = VStr x) \/ isna v = true)
         (column (standardise pandas py_repr d) "Ligne").
Proof.
  rewrite column_standardise_Ligne. destruct (has_col "Ligne" d).
  - unfold astype_str. apply Forall_forall. intros v Hv.
    apply list_elem_of_In, in_map_iff in Hv as (w & <- & _).
    apply astype_str_cell_text_or_missing.
  - unfold broadcast. apply Forall_forall. intros v Hv.
    apply list_elem_of_In, in_map_iff in Hv as (w & <- & _). eauto.
Qed.

Lemma text_column (s : list pyval) :
  Forall (fun v => (exists x, v = VStr x) \/ isna v = true) s ->
  Forall (fun v => isna v = false) s ->
  exists texts : list string, s = map VStr texts.
Proof.
  induction 1 as [|v s Hv _ IH]; intros Hna.
  - now exists [].
  - apply Forall_cons in Hna as [Hv' Hs]. destruct (IH Hs) as [texts ->].
    destruct Hv as [[x ->] | Hv]; [|congruence].
    now exists (x :: texts).
Qed.

Lemma filter_not_mem (k : string) (l : list string) :
  mem k l = false -> List.filter (String.eqb k) l = [].
Proof.
  induction l as [|x l IH]; [reflexivity|]. cbn [mem existsb List.filter].
  intros H. apply orb_false_elim in H as [-> H]. now apply IH.
Qed.

Lemma distinct_not_repeated (k : string) (d : DataFrame) :
  distinct (columns d) = true -> repeated k d = false.
Proof.
  unfold repeated. generalize (columns d) as l.
  induction l as [|x l IH]; [reflexivity|]. cbn [distinct List.filter].
  intros H. apply andb_prop in H as [Hx Hl].
  destruct (String.eqb k x) eqn:E; [|now apply IH].
  apply String.eqb_eq in E. subst x.
  rewrite filter_not_mem; [reflexivity|]. now destruct (mem k l).
Qed.

(** Line 95 on a Ligne column that holds text only, under a label that is
    not repeated. *)
Lemma lignes_dispo_text (df : DataFrame) (texts : list string) :
  has_col "Ligne" df = true ->
  repeated "Ligne" df = false ->
  column df "Ligne" = map VStr texts ->
  getitem df "Ligne" = Ok (map VStr texts) /\
  lignes_dispo df = Ok (sorted (unique texts)).
Proof.
  intros Hc Hrep Hcol.
  assert (getitem df "Ligne" = Ok (map VStr texts)) as Hg
    by (rewrite (getitem_has_col _ _ Hc); now rewrite Hcol).
  split; [exact Hg|].
  unfold lignes_dispo. rewrite Hg. simpl. rewrite Hrep.
  now rewrite for_each_as_text.
Qed.

Lemma for_each_as_text_inv (s : list pyval) (texts : list string) :
  for_each as_text s = Ok texts -> s = map VStr texts.
Proof.
  revert texts. induction s as [|v s IH]; intros texts; simpl.
  - now intros [= <-].
  - destruct v; simpl; try discriminate.
    destruct (for_each as_text s) as [ts|e]; simpl; [|discriminate].
    intros [= <-]. simpl. f_equal. now apply IH.
Qed.

(** When line 95 returns, the Ligne column holds text only, and the options
    are its distinct values, sorted. *)
Lemma lignes_dispo_Ok (df : DataFrame) (options : list string) :
  lignes_dispo df = Ok options ->
  has_col "Ligne" df = true /\
  exists texts : list string,
    column df "Ligne" = map VStr texts /\
    getitem df "Ligne" = Ok (map VStr texts) /\
    options = sorted (unique texts).
Proof.
  unfold lignes_dispo, getitem, column, has_col, columns.
  destruct (assoc "Ligne" (cols df)) as [s|] eqn:Hs; simpl; [|discriminate].
  destruct (repeated "Ligne" df); [discriminate|].
  destruct (for_each as_text s) as [texts|e] eqn:Ht; simpl; [|discriminate].
  intros [= <-]. split; [apply mem_map_fst; eauto|].
  exists texts. apply for_each_as_text_inv in Ht. now subst s.
Qed.

(** On a table returned by [clean_data] whose labels are distinct and
    whose Ligne column has no missing cell, line 95 computes its options
    without raising. *)
Lemma cleaned_lignes_dispo (pandas : pandas_version) (py_repr : pyval -> string)
    (raw df : DataFrame) :
  clean_table pandas py_repr raw = Ok df ->
  empty df = false ->
  has_col "Ligne" df = true ->
  distinct (columns df) = true ->
  Forall (fun v => isna v = false) (column df "Ligne") ->
  exists texts : list string,
    column df "Ligne" = map VStr texts /\
    getitem df "Ligne" = Ok (map VStr texts) /\
    lignes_dispo df = Ok (sorted (unique texts)).
Proof.
  intros Hclean He Hc Hdist Hna. destruct (empty raw) eqn:Her.
  - rewrite clean_table_eq in Hclean. unfold clean_frame in Hclean.
    rewrite Her in Hclean. injection Hclean as <-. congruence.
  - destruct (clean_table_Ok pandas py_repr raw df Her Hclean)
      as (kept & _ & _ & Hdf).
    destruct (text_column (column df "Ligne")) as [texts Ht]; [|exact Hna|].
    { rewrite Hdf. apply standardise_Ligne_text_or_missing. }
    exists texts. split; [exact Ht|].
    apply lignes_dispo_text; [exact Hc | now apply distinct_not_repeated | exact Ht].
Qed.

(** C7: under pandas 3 the table cleaned from a record with a line and a
    record without one holds a missing Ligne next to a text; line 95 then
    raises [TypeError], so a user who would select nothing gets no view at
    all, not the whole table. *)
Theorem empty_selection_raises_on_missing_ligne (py_repr : pyval -> string) :
  exists df : DataFrame,
    clean_table Pandas3 py_repr (DataFrame_of_records [paris_record; no_ligne_record])
    = Ok df /\
    cell df "Ligne" 0 = Some (VStr "1") /\
    (exists v, cell df "Ligne" 1 = Some v /\ isna v = true) /\
    exists msg : string, df_filtre (fun _ => []) df = Raise (TypeError msg).
Proof.
  eexists. split; [reflexivity|]. split; [reflexivity|].
  split; eexists; [split|]; reflexivity.
Qed.

(** C8: on the same table, a user who keeps the default selection of every
    line gets no view either: line 95 raises before the multiselect is
    shown. *)
Theorem full_selection_raises_on_missing_ligne (py_repr : pyval -> string) :
  exists df : DataFrame,
    clean_table Pandas3 py_repr (DataFrame_of_records [paris_record; no_ligne_record])
    = Ok df /\
    (exists v, cell df "Ligne" 1 = Some v /\ isna v = true) /\
    exists msg : string,
      lignes_dispo df = Raise (TypeError msg) /\
      df_filtre (fun lignes_dispo => lignes_dispo) df = Raise (TypeError msg).
Proof.
  eexists. split; [reflexivity|].
  split; eexists; split; reflexivity.
Qed.

(** ** The Accueil page *)

(** C3: on an empty table the Accueil page shows its title and the success
    banner, and nothing else: no error, no warning.  The banner does not
    depend on the table. *)
Theorem accueil_success_on_empty_table (df df_filtre : DataFrame) :
  empty df = true ->
  page_accueil df df_filtre
  = ([st_title "🚾 Dashboard RATP (API En direct)"; success_banner], Ok tt).
Proof. intros He. unfold page_accueil. now rewrite He. Qed.

Lemma accueil_success_on_empty_table_witness :
  empty empty_frame = true /\
  page_accueil empty_frame empty_frame
  = ([st_title "🚾 Dashboard RATP (API En direct)"; success_banner], Ok tt).
Proof.
  split; [reflexivity|].
  exact (accueil_success_on_empty_table empty_frame empty_frame eq_refl).
Defined.

(** ** The fetcher *)

(** A reply with status 200 and an empty list of records: nothing failed,
    no message is shown, and the frame is empty all the same. *)
Lemma empty_records_reply_is_no_failure :
  load_data_from_api no_positional (Reply 200 (Ok (VDict [("records", VList [])])))
  = ([], empty_frame)
  /\ empty empty_frame = true.
Proof. split; reflexivity. Qed.

Lemma technical_error_distinct (e : exn) : technical_error e <> connection_error.
Proof. unfold technical_error, connection_error. simpl. discriminate. Qed.

Lemma for_each_fields_of (items : list pyval) (fs : list record) :
  Forall2 (fun item f => exists r, item = VDict r /\ assoc "fields" r = Some (VDict f))
          items fs ->
  for_each fields_of items = Ok (map VDict fs).
Proof.
  induction 1 as [|item f items fs (r & -> & Hf) _ IH]; simpl; [done|].
  rewrite Hf, IH. reflexivity.
Qed.

Lemma all_dicts_records (fs : list record) :
  all_dicts (map VDict fs) = Some fs.
Proof.
  induction fs as [|f fs IH]; simpl; [done|]. now rewrite IH.
Qed.

Lemma pd_DataFrame_records
    (positional_frame : list pyval -> result DataFrame) (fs : list record) :
  pd_DataFrame positional_frame (map VDict fs) = Ok (DataFrame_of_records fs).
Proof. unfold pd_DataFrame. now rewrite all_dicts_records. Qed.

(** C9, as the code has it: a status other than 200 shows the connection
    error and gives the empty frame; an exception of [requests.get], of
    [response.json()] or of the walk through the body shows the technical
    error, a different message, and gives the empty frame; a status 200
    whose body holds a list of records, each with an object under fields,
    shows nothing and gives the frame of those objects; a status 200 whose
    body has no records key, or an empty list under it, shows nothing and
    gives the empty frame. *)
Theorem load_data_from_api_outcomes
    (positional_frame : list pyval -> result DataFrame) :
  (forall (status_code : Z) (json : result pyval),
     status_code <> 200%Z ->
     load_data_from_api positional_frame (Reply status_code json)
     = ([st_error connection_error], empty_frame)) /\
  (forall e : exn,
     load_data_from_api positional_frame (NoReply e)
     = ([st_error (technical_error e)], empty_frame) /\
     load_data_from_api positional_frame (Reply 200 (Raise e))
     = ([st_error (technical_error e)], empty_frame) /\
     technical_error e <> connection_error) /\
  (forall (data : pyval) (e : exn),
     (records ← get_records data; items ← iter records;
      for_each fields_of items) = Raise e ->
     load_data_from_api positional_frame (Reply 200 (Ok data))
     = ([st_error (technical_error e)], empty_frame)) /\
  (forall (d : record) (items : list pyval) (fs : list record),
     assoc "records" d = Some (VList items) ->
     Forall2 (fun item f =>
                exists r, item = VDict r /\ assoc "fields" r = Some (VDict f))
             items fs ->
     load_data_from_api positional_frame (Reply 200 (Ok (VDict d)))
     = ([], DataFrame_of_records fs)) /\
  (forall d : record,
     assoc "records" d = None \/ assoc "records" d = Some (VList []) ->
     load_data_from_api positional_frame (Reply 200 (Ok (VDict d)))
     = ([], empty_frame)).
Proof.
  repeat split.
  - intros status_code json Hs. unfold load_data_from_api.
    destruct (Z.eqb_spec status_code 200); [contradiction | reflexivity].
  - apply technical_error_distinct.
  - intros data e He. unfold load_data_from_api. simpl.
    destruct (get_records data) as [records|e1]; simpl in *;
      [|now injection He as <-].
    destruct (iter records) as [items|e2]; simpl in *;
      [|now injection He as <-].
    destruct (for_each fields_of items) as [fs|e3]; simpl in *;
      [discriminate | now injection He as <-].
  - intros d items fs Hrec Hitems. unfold load_data_from_api. simpl.
    rewrite Hrec. simpl. rewrite (for_each_fields_of items fs Hitems). simpl.
    now rewrite pd_DataFrame_records.
  - intros d [Hrec | Hrec]; unfold load_data_from_api; simpl;
      now rewrite Hrec.
Qed.

Lemma load_data_from_api_outcomes_witness :
  load_data_from_api no_positional (Reply 500 (Ok VNone))
  = ([st_error connection_error], empty_frame) /\
  load_data_from_api no_positional (Reply 200 (Ok (VList [])))
  = ([st_error "Erreur technique : 'list' object has no attribute 'get'"],
     empty_frame) /\
  load_data_from_api no_positional
    (Reply 200 (Ok (VDict [("records",
                            VList [VDict [("fields", VDict paris_record)]])])))
  = ([], DataFrame_of_records [paris_record]) /\
  load_data_from_api no_positional (Reply 200 (Ok (VDict [("nhits", VInt 0)])))
  = ([], empty_frame).
Proof.
  destruct (load_data_from_api_outcomes no_positional) as (H1 & _ & H3 & H4 & H5).
  split; [apply H1; discriminate|].
  split; [apply (H3 (VList []) _ eq_refl)|].
  split.
  - apply (H4 [("records", VList [VDict [("fields", VDict paris_record)]])]
              [VDict [("fields", VDict paris_record)]] [paris_record] eq_refl).
    repeat constructor. eexists. split; reflexivity.
  - apply (H5 [("nhits", VInt 0)]). left. reflexivity.
Defined.

(** ** Rows that survive [dropna] *)

Lemma select_mask_and_l {A} (P : A -> Prop) (m1 m2 : list bool) (xs : list A) :
  Forall P (select m1 xs) -> Forall P (select (mask_and m1 m2) xs).
Proof.
  revert m2 xs. induction m1 as [|b1 m1 IH]; intros [|b2 m2] [|x xs]; simpl;
    try constructor.
  destruct b1, b2; simpl; intros H; try (apply IH; exact H).
  - inversion H; subst. constructor; auto.
  - inversion H; subst. auto.
Qed.

Lemma select_mask_and_r {A} (P : A -> Prop) (m1 m2 : list bool) (xs : list A) :
  Forall P (select m2 xs) -> Forall P (select (mask_and m1 m2) xs).
Proof.
  revert m2 xs. induction m1 as [|b1 m1 IH]; intros [|b2 m2] [|x xs]; simpl;
    try constructor.
  destruct b1, b2; simpl; intros H; try (apply IH; exact H).
  - inversion H; subst. constructor; auto.
  - inversion H; subst. auto.
Qed.

Lemma select_notna (xs : list pyval) :
  Forall (fun v => isna v = false)
         (select (map (fun v => negb (isna v)) xs) xs).
Proof.
  induction xs as [|x xs IH]; simpl; [constructor|].
  destruct (isna x) eqn:E; simpl; [exact IH | now constructor].
Qed.

(** Every row of the table that [clean_data] returns for a frame that is
    not empty has a lat and a lon that are not missing; when the frame had
    a coord_geo column, the row's coord_geo cell is a two-element list. *)
Lemma cleaned_rows_have_coordinates
    (pandas : pandas_version) (py_repr : pyval -> string) (raw df : DataFrame) :
  empty raw = false ->
  clean_table pandas py_repr raw = Ok df ->
  Forall (fun v => isna v = false) (column df "lat") /\
  Forall (fun v => isna v = false) (column df "lon") /\
  (has_col "coord_geo" raw = true ->
   Forall (fun x => exists a b, x = VList [a; b]) (column df "coord_geo")).
Proof.
  intros He Hclean.
  destruct (clean_table_Ok pandas py_repr raw df He Hclean) as (kept & _ & Hk & ->).
  rewrite !column_standardise by discriminate.
  rewrite !column_rename_coord by tauto. subst kept.
  rewrite !column_select_rows.
  assert (Forall (fun v => isna v = false)
            (select (notna_mask (extract_coords raw) ["lat"; "lon"])
                    (column (extract_coords raw) "lat"))) as Hlat
    by (apply select_mask_and_l, select_notna).
  assert (Forall (fun v => isna v = false)
            (select (notna_mask (extract_coords raw) ["lat"; "lon"])
                    (column (extract_coords raw) "lon"))) as Hlon
    by (apply select_mask_and_r, select_mask_and_l, select_notna).
  repeat split; [exact Hlat | exact Hlon |].
  intros Hc. destruct (column_extract_coords raw Hc) as (Hcg & Hl & _).
  rewrite Hl, select_map in Hlat. rewrite Hcg.
  apply Forall_map in Hlat. eapply Forall_impl; [exact Hlat|].
  intros x Hx. simpl in Hx.
  destruct x as [| | | | | | [|a [|b [|c l]]] |]; try discriminate.
  now exists a, b.
Qed.

(** * Further properties of the code *)

(** ** Frames built from records *)

Lemma distinct_unique_acc (seen l : list string) :
  distinct (unique_acc seen l) = true.
Proof.
  revert seen. induction l as [|x l IH]; intros seen; simpl; [done|].
  destruct (mem x seen) eqn:Hx; [apply IH|].
  change (negb (mem x (unique_acc (x :: seen) l))
          && distinct (unique_acc (x :: seen) l) = true).
  rewrite IH, mem_unique_acc. simpl. rewrite String.eqb_refl. simpl.
  now rewrite andb_false_r.
Qed.

Lemma columns_DataFrame_of_records (rs : list record) :
  columns (DataFrame_of_records rs) = unique (concat (map (map fst) rs)).
Proof.
  unfold columns, DataFrame_of_records. simpl. rewrite map_map. simpl.
  apply map_id.
Qed.

Lemma mem_concat_keys (k : string) (rs : list record) :
  mem k (concat (map (map fst) rs)) = true <->
  exists r v, In r rs /\ assoc k r = Some v.
Proof.
  rewrite mem_In, in_concat. split.
  - intros (ks & Hks & Hk). apply in_map_iff in Hks as (r & <- & Hr).
    apply mem_In, mem_map_fst in Hk as [v Hv]. eauto.
  - intros (r & v & Hr & Hv). exists (map fst r). split.
    + apply in_map_iff. eauto.
    + apply mem_In, mem_map_fst. eauto.
Qed.

Lemma records_frame_shape (rs : list record) :
  len (DataFrame_of_records rs) = length rs /\
  rectangular (DataFrame_of_records rs) = true /\
  distinct (columns (DataFrame_of_records rs)) = true /\
  forall k : string,
    has_col k (DataFrame_of_records rs) = true <->
    exists r v, In r rs /\ assoc k r = Some v.
Proof.
  repeat split.
  - unfold len, DataFrame_of_records. simpl. apply length_seq.
  - apply rectangular_spec. intros k s. unfold DataFrame_of_records. simpl.
    rewrite in_map_iff. intros (k' & [= <- <-] & _).
    now rewrite length_map, length_seq.
  - rewrite columns_DataFrame_of_records. apply distinct_unique_acc.
  - unfold has_col. rewrite columns_DataFrame_of_records, mem_unique.
    apply mem_concat_keys.
  - unfold has_col. rewrite columns_DataFrame_of_records, mem_unique.
    apply mem_concat_keys.
Qed.

(** The frame that [pd.DataFrame] builds from a list of dicts has one row
    per dict, one cell per row in every column, no label twice, and its
    labels are exactly the keys that occur in some dict. *)
Theorem DataFrame_of_records_shape (rs : list record) :
  len (DataFrame_of_records rs) = length rs /\
  rectangular (DataFrame_of_records rs) = true /\
  distinct (columns (DataFrame_of_records rs)) = true /\
  forall k : string,
    has_col k (DataFrame_of_records rs) = true <->
    exists r v, In r rs /\ assoc k r = Some v.
Proof. apply records_frame_shape. Qed.

(** ** The fetcher, whatever the reply *)

Lemma load_message_or_frame
    (positional_frame : list pyval -> result DataFrame) (reply : http_reply) :
  fst (load_data_from_api positional_frame reply) = [] \/
  exists body : string,
    load_data_from_api positional_frame reply = ([st_error body], empty_frame).
Proof.
  unfold load_data_from_api. destruct reply as [e | status_code json].
  - right. eauto.
  - destruct (status_code =? 200)%Z; [|right; eauto].
    destruct json as [data|e]; simpl; [|right; eauto].
    destruct (get_records data) as [records|e]; simpl; [|right; eauto].
    destruct (iter records) as [items|e]; simpl; [|right; eauto].
    destruct (for_each fields_of items) as [clean_records|e]; simpl;
      [|right; eauto].
    destruct (pd_DataFrame positional_frame clean_records) as [df|e]; simpl;
      [left; reflexivity | right; eauto].
Qed.

(** The fetcher shows nothing or one error, and a frame that comes with an
    error is the empty frame [pd.DataFrame()]. *)
Theorem load_data_from_api_message_or_frame
    (positional_frame : list pyval -> result DataFrame) (reply : http_reply) :
  fst (load_data_from_api positional_frame reply) = [] \/
  exists body : string,
    load_data_from_api positional_frame reply = ([st_error body], empty_frame).
Proof. apply load_message_or_frame. Qed.

Lemma for_each_fields_of_missing (items : list pyval) :
  Forall (fun item => exists r, item = VDict r) items ->
  Exists (fun item => exists r, item = VDict r /\ assoc "fields" r = None) items ->
  for_each fields_of items = Raise (KeyError (Label "fields")).
Proof.
  induction 1 as [|item items (r & ->) _ IH]; intros Hex.
  - inversion Hex.
  - simpl. destruct (assoc "fields" r) as [f|] eqn:Hf; [|reflexivity].
    simpl. rewrite IH; [reflexivity|].
    apply Exists_cons in Hex as [(r' & Heq & Hr') | Hrest]; [|exact Hrest].
    injection Heq as <-. congruence.
Qed.

(** One record without a fields key loses the whole batch: when every
    record of a status-200 body is a dict and one of them has no fields,
    the fetcher shows the technical error for that key and returns the
    empty frame, whatever the other records hold. *)
Theorem load_data_from_api_record_without_fields
    (positional_frame : list pyval -> result DataFrame)
    (d : record) (items : list pyval) :
  assoc "records" d = Some (VList items) ->
  Forall (fun item => exists r, item = VDict r) items ->
  Exists (fun item => exists r, item = VDict r /\ assoc "fields" r = None) items ->
  load_data_from_api positional_frame (Reply 200 (Ok (VDict d)))
  = ([st_error "Erreur technique : 'fields'"], empty_frame).
Proof.
  intros Hrec Hall Hex. unfold load_data_from_api. simpl. rewrite Hrec. simpl.
  now rewrite (for_each_fields_of_missing items Hall Hex).
Qed.

Lemma load_data_from_api_record_without_fields_witness :
  load_data_from_api no_positional
    (Reply 200 (Ok (VDict [("records",
       VList [VDict [("fields", VDict paris_record)];
              VDict [("recordid", VStr "b2")]])])))
  = ([st_error "Erreur technique : 'fields'"], empty_frame).
Proof.
  apply (load_data_from_api_record_without_fields no_positional
           [("records", VList [VDict [("fields", VDict paris_record)];
                               VDict [("recordid", VStr "b2")]])]
           [VDict [("fields", VDict paris_record)];
            VDict [("recordid", VStr "b2")]] eq_refl).
  - repeat constructor; eexists; reflexivity.
  - apply Exists_cons_tl, Exists_cons_hd. eexists. split; reflexivity.
Defined.

(** A body whose records all carry an object under fields gives, without
    any message, a frame with one row per record, rectangular and with
    distinct labels. *)
Theorem load_data_from_api_one_row_per_record
    (positional_frame : list pyval -> result DataFrame)
    (d : record) (items : list pyval) (fs : list record) :
  assoc "records" d = Some (VList items) ->
  Forall2 (fun item f =>
             exists r, item = VDict r /\ assoc "fields" r = Some (VDict f))
          items fs ->
  exists raw_df : DataFrame,
    load_data_from_api positional_frame (Reply 200 (Ok (VDict d))) = ([], raw_df) /\
    len raw_df = length items /\
    rectangular raw_df = true /\
    distinct (columns raw_df) = true.
Proof.
  intros Hrec Hitems. exists (DataFrame_of_records fs).
  destruct (records_frame_shape fs) as (Hlen & Hrect & Hdist & _).
  repeat split; try assumption.
  - unfold load_data_from_api. simpl. rewrite Hrec. simpl.
    rewrite (for_each_fields_of items fs Hitems). simpl.
    now rewrite pd_DataFrame_records.
  - rewrite Hlen. symmetry. eapply Forall2_length. exact Hitems.
Qed.

Lemma load_data_from_api_one_row_per_record_witness :
  exists raw_df : DataFrame,
    load_data_from_api no_positional
      (Reply 200 (Ok (VDict [("records",
         VList [VDict [("fields", VDict paris_record)];
                VDict [("fields", VDict ligne4_record)]])])))
    = ([], raw_df) /\
    len raw_df = 2.
Proof.
  destruct (load_data_from_api_one_row_per_record no_positional
              [("records", VList [VDict [("fields", VDict paris_record)];
                                  VDict [("fields", VDict ligne4_record)]])]
              [VDict [("fields", VDict paris_record)];
               VDict [("fields", VDict ligne4_record)]]
              [paris_record; ligne4_record] eq_refl)
    as (raw_df & Hload & Hlen & _).
  - repeat constructor; eexists; split; reflexivity.
  - exists raw_df. split; [exact Hload | exact Hlen].
Defined.

(** ** When [clean_data] returns, and what *)

Lemma has_col_iff_eq (d d' : DataFrame) (k : string) :
  assoc k (cols d') = None <-> assoc k (cols d) = None ->
  has_col k d' = has_col k d.
Proof.
  intros H. unfold has_col, columns.
  destruct (mem k (map fst (cols d))) eqn:E.
  - apply mem_map_fst in E as [x E]. apply mem_map_fst.
    destruct (assoc k (cols d')) as [y|] eqn:E'; [eauto|].
    destruct H as [H _]. specialize (H eq_refl). congruence.
  - apply mem_map_fst_false in E. apply mem_map_fst_false. now apply H.
Qed.

Lemma has_col_rename_coord (d : DataFrame) (k : string) :
  k = "coord_geo" \/ k = "lat" \/ k = "lon" ->
  has_col k (rename mapping d) = has_col k d.
Proof.
  intros Hk. apply has_col_iff_eq. unfold rename. cbn [cols].
  rewrite assoc_rename_other; [done | |].
  - destruct Hk as [-> | [-> | ->]]; reflexivity.
  - intros a Ha. apply mapping_targets in Ha.
    destruct Hk as [-> | [-> | ->]]; intuition discriminate.
Qed.

Lemma has_col_standardise_other (pandas : pandas_version) (py_repr : pyval -> string) (d : DataFrame)
    (k : string) :
  k <> "Tarif" -> k <> "Ligne" -> k <> "color" ->
  has_col k (standardise pandas py_repr d) = has_col k d.
Proof.
  intros Ht Hl Hc. unfold standardise.
  rewrite has_col_setitem_ne by congruence.
  destruct (has_col "Ligne" _); rewrite has_col_setitem_ne by congruence;
    destruct (has_col "Tarif" d); now rewrite has_col_setitem_ne by congruence.
Qed.

Lemma has_col_standardise (pandas : pandas_version) (py_repr : pyval -> string) (d : DataFrame) :
  has_col "Tarif" (standardise pandas py_repr d) = true /\
  has_col "Ligne" (standardise pandas py_repr d) = true /\
  has_col "color" (standardise pandas py_repr d) = true.
Proof.
  unfold standardise.
  set (d1 := if has_col "Tarif" d then _ else _).
  assert (has_col "Tarif" d1 = true) as H1
    by (subst d1; destruct (has_col "Tarif" d); apply has_col_setitem_eq).
  set (d2 := if has_col "Ligne" d1 then _ else _).
  assert (has_col "Ligne" d2 = true) as H2
    by (subst d2; destruct (has_col "Ligne" d1); apply has_col_setitem_eq).
  assert (has_col "Tarif" d2 = true) as H3
    by (subst d2; destruct (has_col "Ligne" d1);
        now rewrite has_col_setitem_ne by discriminate).
  repeat split.
  - now rewrite has_col_setitem_ne by discriminate.
  - now rewrite has_col_setitem_ne by discriminate.
  - apply has_col_setitem_eq.
Qed.

Lemma has_col_extract_coords (d : DataFrame) (k : string) :
  k = "lat" \/ k = "lon" ->
  has_col k (extract_coords d) = has_col "coord_geo" d || has_col k d.
Proof.
  intros Hk. unfold extract_coords.
  destruct (has_col "coord_geo" d); [|reflexivity]. simpl.
  destruct Hk as [-> | ->].
  - rewrite has_col_setitem_ne by discriminate. apply has_col_setitem_eq.
  - apply has_col_setitem_eq.
Qed.

Lemma has_col_extract_coords_coord (d : DataFrame) :
  has_col "coord_geo" (extract_coords d) = has_col "coord_geo" d.
Proof.
  unfold extract_coords. destruct (has_col "coord_geo" d) eqn:E; [|exact E].
  now rewrite !has_col_setitem_ne by discriminate.
Qed.

Lemma index_extract_coords (d : DataFrame) : index (extract_coords d) = index d.
Proof.
  unfold extract_coords. destruct (has_col "coord_geo" d); [|reflexivity].
  now rewrite !index_setitem.
Qed.


(** [clean_data] returns a table exactly when the frame is empty, or has a
    coord_geo column, or has both a lat and a lon column of its own; in
    every other case it raises the [KeyError] of line 53, which names some
    of lat and lon and nothing else. *)
Theorem clean_data_returns_iff (pandas : pandas_version) (py_repr : pyval -> string) (raw : DataFrame) :
  ((exists df, clean_table pandas py_repr raw = Ok df) <->
   empty raw = true \/ has_col "coord_geo" raw = true \/
   (has_col "lat" raw = true /\ has_col "lon" raw = true)) /\
  (forall e : exn,
     clean_table pandas py_repr raw = Raise e ->
     exists ks : list string,
       e = KeyError (Labels ks) /\ ks <> [] /\
       forall k, In k ks -> k = "lat" \/ k = "lon").
Proof.
  rewrite clean_table_eq. unfold clean_frame, dropna. simpl.
  rewrite !has_col_extract_coords by tauto.
  destruct (empty raw); [split; [split; eauto | discriminate]|].
  destruct (has_col "coord_geo" raw); simpl;
    [split; [split; eauto | discriminate]|].
  destruct (has_col "lat" raw), (has_col "lon" raw); simpl.
  - split; [split; eauto | discriminate].
  - split.
    + split; [intros [df H]; discriminate | intros [H | [H | [_ H]]]; discriminate].
    + intros e [= <-]. eexists. split; [reflexivity|].
      split; [discriminate | simpl; intuition].
  - split.
    + split; [intros [df H]; discriminate | intros [H | [H | [H _]]]; discriminate].
    + intros e [= <-]. eexists. split; [reflexivity|].
      split; [discriminate | simpl; intuition].
  - split.
    + split; [intros [df H]; discriminate | intros [H | [H | [H _]]]; discriminate].
    + intros e [= <-]. eexists. split; [reflexivity|].
      split; [discriminate | simpl; intuition].
Qed.

(** On an empty frame [clean_data] hands back the reference it was given
    and allocates nothing; on any other frame, when it returns, it returns
    a reference to an object that did not exist before the call. *)
Theorem clean_data_result_reference
    (pandas : pandas_version) (py_repr : pyval -> string) (σ : store) (df : ref) (raw : DataFrame) :
  σ !! df = Some raw ->
  (empty raw = true -> clean_data pandas py_repr df σ = (Ok df, σ)) /\
  (empty raw = false ->
   forall (r : ref) (σ' : store),
     clean_data pandas py_repr df σ = (Ok r, σ') ->
     r <> df /\ σ !! r = None /\ is_Some (σ' !! r)).
Proof.
  intros Hdf. rewrite (clean_data_run pandas py_repr σ df raw Hdf). split.
  - now intros ->.
  - intros -> r σ'.
    destruct (dropna _ _) as [d1|e]; [|discriminate]. intros [= <- <-].
    pose proof (lookup_lt_Some _ _ _ Hdf) as Hlt.
    repeat split.
    + lia.
    + apply lookup_ge_None. lia.
    + apply lookup_lt_is_Some. rewrite length_app. simpl. lia.
Qed.

Lemma clean_data_result_reference_witness :
  (exists (r : ref) (σ' : store),
     clean_data Pandas3 no_repr 0 [DataFrame_of_records [paris_record]] = (Ok r, σ') /\
     r <> 0) /\
  clean_data Pandas3 no_repr 0 [empty_frame] = (Ok 0, [empty_frame]).
Proof.
  split.
  - eexists _, _. split; [reflexivity|].
    exact (proj1 (proj2 (clean_data_result_reference Pandas3 no_repr
             [DataFrame_of_records [paris_record]] 0 _ eq_refl)
             eq_refl _ _ eq_refl)).
  - exact (proj1 (clean_data_result_reference Pandas3 no_repr [empty_frame] 0 _ eq_refl)
             eq_refl).
Defined.

Lemma clean_table_empty (pandas : pandas_version) (py_repr : pyval -> string) (raw df : DataFrame) :
  empty raw = true -> clean_table pandas py_repr raw = Ok df -> df = raw.
Proof.
  intros He. rewrite clean_table_eq. unfold clean_frame. rewrite He.
  now intros [= <-].
Qed.

Lemma dropna_Ok_has_col (subset : list string) (d kept : DataFrame) (k : string) :
  dropna subset d = Ok kept -> In k subset -> has_col k d = true.
Proof.
  unfold dropna. intros Hd Hk.
  destruct (List.filter _ subset) as [|k0 ks] eqn:Hf; [|discriminate].
  destruct (has_col k d) eqn:E; [reflexivity|].
  assert (In k (List.filter (fun k => negb (has_col k d)) subset)) as Hin
    by (apply filter_In; now rewrite E).
  rewrite Hf in Hin. destruct Hin.
Qed.

Lemma cleaned_schema (pandas : pandas_version) (py_repr : pyval -> string) (raw df : DataFrame) :
  empty raw = false ->
  clean_table pandas py_repr raw = Ok df ->
  (has_col "lat" df = true /\ has_col "lon" df = true /\
   has_col "Tarif" df = true /\ has_col "Ligne" df = true /\
   has_col "color" df = true) /\
  (forall i : nat, i < len df -> cell df "color" i = Some (VStr "#FF0000")) /\
  (rectangular raw = true -> rectangular df = true).
Proof.
  intros He Hclean.
  destruct (clean_table_Ok pandas py_repr raw df He Hclean) as (kept & Hd & Hk & Hdf).
  split; [|split].
  - subst df.
    destruct (has_col_standardise pandas py_repr (rename mapping kept)) as (Ht & Hl & Hc).
    repeat split; try assumption.
    + rewrite has_col_standardise_other by discriminate.
      rewrite has_col_rename_coord by tauto. subst kept.
      rewrite has_col_select_rows.
      eapply dropna_Ok_has_col; [exact Hd | simpl; tauto].
    + rewrite has_col_standardise_other by discriminate.
      rewrite has_col_rename_coord by tauto. subst kept.
      rewrite has_col_select_rows.
      eapply dropna_Ok_has_col; [exact Hd | simpl; tauto].
  - intros i Hi. subst df. rewrite cell_column. unfold standardise.
    rewrite column_setitem_eq. apply lookup_broadcast.
    unfold len in *. unfold standardise in Hi. now rewrite index_setitem in Hi.
  - intros Hr. exact (cleaned_rectangular pandas py_repr raw df Hr Hclean).
Qed.

(** The table that [clean_data] returns for a frame that is not empty has
    the columns lat, lon, Tarif, Ligne and color, holds "#FF0000" in every
    row of color, and is rectangular when the frame was. *)
Theorem clean_data_output_schema (pandas : pandas_version) (py_repr : pyval -> string) (raw df : DataFrame) :
  empty raw = false ->
  clean_table pandas py_repr raw = Ok df ->
  (has_col "lat" df = true /\ has_col "lon" df = true /\
   has_col "Tarif" df = true /\ has_col "Ligne" df = true /\
   has_col "color" df = true) /\
  (forall i : nat, i < len df -> cell df "color" i = Some (VStr "#FF0000")) /\
  (rectangular raw = true -> rectangular df = true).
Proof. apply cleaned_schema. Qed.

Lemma clean_data_output_schema_witness :
  exists df : DataFrame,
    clean_table Pandas3 no_repr (DataFrame_of_records [paris_record; ligne4_record]) = Ok df /\
    has_col "Tarif" df = true /\ has_col "color" df = true.
Proof.
  eexists. split; [reflexivity|].
  destruct (clean_data_output_schema Pandas3 no_repr
              (DataFrame_of_records [paris_record; ligne4_record]) _
              eq_refl eq_refl) as ((_ & _ & Ht & _ & Hc) & _).
  split; [exact Ht | exact Hc].
Defined.

(** ** Which rows [clean_data] keeps *)

Lemma select_sublist {A} (m : list bool) (xs : list A) :
  select m xs `sublist_of` xs.
Proof.
  revert xs. induction m as [|b m IH]; intros [|x xs]; simpl;
    try apply sublist_nil_l.
  destruct b; [apply sublist_skip | apply sublist_cons]; apply IH.
Qed.

Lemma index_cleaned (pandas : pandas_version) (py_repr : pyval -> string) (raw df : DataFrame) :
  empty raw = false ->
  clean_table pandas py_repr raw = Ok df ->
  index df = select (notna_mask (extract_coords raw) ["lat"; "lon"]) (index raw).
Proof.
  intros He Hclean.
  destruct (clean_table_Ok pandas py_repr raw df He Hclean) as (kept & _ & -> & ->).
  rewrite index_standardise. simpl. now rewrite index_extract_coords.
Qed.

(** [clean_data] adds no row and reorders none: the row labels of the
    table it returns are a sub-list of those of the frame, in the same
    order, so the table has at most as many rows. *)
Theorem cleaned_rows_sublist (pandas : pandas_version) (py_repr : pyval -> string) (raw df : DataFrame) :
  clean_table pandas py_repr raw = Ok df ->
  index df `sublist_of` index raw /\ len df <= len raw.
Proof.
  intros Hclean.
  assert (index df `sublist_of` index raw) as Hsub.
  { destruct (empty raw) eqn:He.
    - now rewrite (clean_table_empty pandas py_repr raw df He Hclean).
    - rewrite (index_cleaned pandas py_repr raw df He Hclean). apply select_sublist. }
  split; [exact Hsub | now apply sublist_length].
Qed.

Lemma cleaned_rows_sublist_witness :
  exists df : DataFrame,
    clean_table Pandas3 no_repr (DataFrame_of_records [paris_record; paris_record]) = Ok df /\
    len df <= 2.
Proof.
  eexists. split; [reflexivity|].
  exact (proj2 (cleaned_rows_sublist Pandas3 no_repr
                  (DataFrame_of_records [paris_record; paris_record]) _ eq_refl)).
Defined.

Lemma usable_coord_spec (x : pyval) :
  usable_coord x = negb (isna (lat_of x)) && negb (isna (lon_of x)).
Proof. now destruct x as [| | | | | | [|a [|b [|c l]]] |]. Qed.

Lemma select_two_masks {A B} (f g : A -> bool) (xs : list A) (idx : list B) :
  length xs = length idx ->
  select (mask_and (map f xs) (mask_and (map g xs) (map (fun _ => true) idx))) xs
  = List.filter (fun x => f x && g x) xs.
Proof.
  revert idx. induction xs as [|x xs IH]; intros [|i idx]; simpl; try done.
  intros [= Hlen]. rewrite andb_true_r.
  destruct (f x && g x); now rewrite IH.
Qed.

(** On a rectangular frame with a coord_geo column, the rows of the
    returned table are exactly the rows whose coord_geo cell is a
    two-element list without a missing element, in their order: no such
    row is lost and no other row is kept. *)
Theorem cleaned_keeps_usable_rows
    (pandas : pandas_version) (py_repr : pyval -> string) (raw df : DataFrame) :
  rectangular raw = true ->
  empty raw = false ->
  has_col "coord_geo" raw = true ->
  clean_table pandas py_repr raw = Ok df ->
  column df "coord_geo" = List.filter usable_coord (column raw "coord_geo") /\
  len df = length (List.filter usable_coord (column raw "coord_geo")).
Proof.
  intros Hr He Hc Hclean.
  assert (column df "coord_geo"
          = List.filter usable_coord (column raw "coord_geo")) as Hcol.
  { destruct (clean_table_Ok pandas py_repr raw df He Hclean) as (kept & _ & -> & ->).
    rewrite column_standardise by discriminate.
    rewrite column_rename_coord by tauto.
    rewrite column_select_rows. simpl.
    destruct (column_extract_coords raw Hc) as (-> & -> & ->).
    rewrite index_extract_coords, !map_map.
    rewrite (select_two_masks (fun x => negb (isna (lat_of x)))
                              (fun x => negb (isna (lon_of x))))
      by now apply length_column.
    apply List.filter_ext. intros x. symmetry. apply usable_coord_spec. }
  split; [exact Hcol|]. rewrite <- Hcol. symmetry.
  apply length_column.
  - exact (cleaned_rectangular pandas py_repr raw df Hr Hclean).
  - destruct (clean_table_Ok pandas py_repr raw df He Hclean) as (kept & _ & -> & ->).
    rewrite has_col_standardise_other by discriminate.
    rewrite has_col_rename_coord by tauto.
    now rewrite has_col_select_rows, has_col_extract_coords_coord.
Qed.

Lemma cleaned_keeps_usable_rows_witness :
  exists df : DataFrame,
    clean_table Pandas3 no_repr (DataFrame_of_records [paris_record; ligne4_record]) = Ok df /\
    len df = 1.
Proof.
  eexists. split; [reflexivity|].
  exact (proj2 (cleaned_keeps_usable_rows Pandas3 no_repr
                  (DataFrame_of_records [paris_record; ligne4_record]) _
                  eq_refl eq_refl eq_refl eq_refl)).
Defined.

(** ** Cleaning twice *)

Lemma replace_col_same (k : string) (cs : list (string * list pyval)) :
  replace_col k (default [] (assoc k cs)) cs = cs.
Proof.
  induction cs as [|[k' s'] cs IH]; simpl; [done|].
  destruct (String.eqb k k') eqn:E; simpl; [done | now rewrite IH].
Qed.

Lemma setitem_same (d : DataFrame) (k : string) :
  has_col k d = true -> setitem d k (column d k) = d.
Proof.
  intros Hc. unfold setitem, column. rewrite Hc, replace_col_same.
  now destruct d.
Qed.

Lemma mask_and_all_true (m1 m2 : list bool) :
  (forall b, In b m1 -> b = true) -> (forall b, In b m2 -> b = true) ->
  length m1 = length m2 ->
  (forall b, In b (mask_and m1 m2) -> b = true) /\
  length (mask_and m1 m2) = length m1.
Proof.
  revert m2. induction m1 as [|b1 m1 IH]; intros [|b2 m2] H1 H2 Hlen;
    simpl in *; try done.
  injection Hlen as Hlen.
  destruct (IH m2) as [Hall Hl]; auto.
  split; [|now rewrite Hl].
  intros b [<- | Hb]; [|auto].
  rewrite (H1 b1), (H2 b2); auto.
Qed.

Lemma map_notna_all_true (s : list pyval) :
  Forall (fun v => isna v = false) s ->
  forall b, In b (map (fun v => negb (isna v)) s) -> b = true.
Proof.
  intros Hs b Hb. apply in_map_iff in Hb as (v & <- & Hv).
  rewrite Forall_forall in Hs. rewrite (Hs v); [reflexivity|].
  now apply list_elem_of_In.
Qed.

Lemma dropna_nothing_missing (d : DataFrame) :
  rectangular d = true ->
  has_col "lat" d = true -> has_col "lon" d = true ->
  Forall (fun v => isna v = false) (column d "lat") ->
  Forall (fun v => isna v = false) (column d "lon") ->
  dropna ["lat"; "lon"] d = Ok d.
Proof.
  intros Hr Hlat Hlon Hnlat Hnlon. unfold dropna. simpl.
  rewrite Hlat, Hlon. simpl. f_equal.
  set (mlat := map (fun v => negb (isna v)) (column d "lat")).
  set (mlon := map (fun v => negb (isna v)) (column d "lon")).
  set (mall := map (fun _ => true) (index d)).
  assert (length mlat = len d) as Llat
    by (subst mlat; rewrite length_map; now apply length_column).
  assert (length mlon = len d) as Llon
    by (subst mlon; rewrite length_map; now apply length_column).
  assert (length mall = len d) as Lall by (subst mall; apply length_map).
  destruct (mask_and_all_true mlon mall) as [Hall2 Hl2].
  { now apply map_notna_all_true. }
  { subst mall. intros b Hb. now apply in_map_iff in Hb as (? & <- & _). }
  { congruence. }
  destruct (mask_and_all_true mlat (mask_and mlon mall)) as [Hall1 Hl1].
  { now apply map_notna_all_true. }
  { exact Hall2. }
  { congruence. }
  apply select_rows_all; [exact Hr | congruence | exact Hall1].
Qed.

Lemma rename_without_source (mp : list (string * string)) (d : DataFrame) :
  (forall k, In k (columns d) -> assoc k mp = None) -> rename mp d = d.
Proof.
  intros H. destruct d as [idx cs]. unfold rename, columns in *. simpl in *.
  f_equal. induction cs as [|[k s] cs IH]; simpl; [done|].
  rewrite (H k) by (simpl; auto). simpl. f_equal. apply IH.
  intros k' Hk'. apply H. simpl. auto.
Qed.

Lemma mapping_renamed_is_no_source (k : string) :
  assoc (default k (assoc k mapping)) mapping = None.
Proof.
  destruct (assoc k mapping) as [t|] eqn:E; simpl; [|exact E].
  apply mapping_targets in E.
  destruct E as [-> | [-> | [-> | [-> | ->]]]]; reflexivity.
Qed.

Lemma In_columns_setitem (d : DataFrame) (k k' : string) (s : list pyval) :
  In k' (columns (setitem d k s)) -> In k' (columns d) \/ k' = k.
Proof.
  unfold setitem, columns. destruct (has_col k d); simpl.
  - rewrite map_fst_replace_col. auto.
  - rewrite map_app, in_app_iff. simpl. intuition.
Qed.

Lemma In_columns_standardise (pandas : pandas_version) (py_repr : pyval -> string) (d : DataFrame)
    (k : string) :
  In k (columns (standardise pandas py_repr d)) ->
  In k (columns d) \/ k = "Tarif" \/ k = "Ligne" \/ k = "color".
Proof.
  unfold standardise. intros H.
  apply In_columns_setitem in H as [H | ->]; [|tauto].
  set (d1 := if has_col "Tarif" d then _ else _) in H.
  assert (forall k, In k (columns d1) -> In k (columns d) \/ k = "Tarif") as H1.
  { intros k0 Hk0. subst d1.
    destruct (has_col "Tarif" d); now apply In_columns_setitem in Hk0. }
  destruct (has_col "Ligne" d1);
    apply In_columns_setitem in H as [H | ->]; try tauto;
    destruct (H1 k H); tauto.
Qed.

Lemma fillna_nothing_missing (v : pyval) (s : list pyval) :
  Forall (fun x => isna x = false) s -> fillna v s = s.
Proof.
  induction 1 as [|x s Hx _ IH]; simpl; [done|]. now rewrite Hx, IH.
Qed.

Lemma Forall_notna_fillna (s : list pyval) :
  Forall (fun x => isna x = false) (fillna (VStr "Inconnu") s).
Proof.
  induction s as [|x s IH]; simpl; constructor; [|exact IH].
  now destruct (isna x) eqn:E.
Qed.

Lemma column_standardise_color (pandas : pandas_version) (py_repr : pyval -> string) (d : DataFrame) :
  column (standardise pandas py_repr d) "color"
  = broadcast (standardise pandas py_repr d) (VStr "#FF0000").
Proof.
  unfold standardise. rewrite column_setitem_eq. unfold broadcast.
  now rewrite index_setitem.
Qed.

Lemma astype_str_cell_idempotent (pandas : pandas_version)
    (py_repr : pyval -> string) (v : pyval) :
  astype_str_cell pandas py_repr (astype_str_cell pandas py_repr v)
  = astype_str_cell pandas py_repr v.
Proof.
  unfold astype_str_cell. destruct (isna v); [destruct pandas|]; reflexivity.
Qed.

(** What the standardisation step leaves in Ligne is left as it is by
    another [astype(str)]. *)
Lemma astype_str_standardised (pandas : pandas_version)
    (py_repr : pyval -> string) (d : DataFrame) :
  astype_str pandas py_repr (column (standardise pandas py_repr d) "Ligne")
  = column (standardise pandas py_repr d) "Ligne".
Proof.
  rewrite column_standardise_Ligne. unfold astype_str, broadcast.
  destruct (has_col "Ligne" d); rewrite map_map; apply map_ext; intros v.
  - apply astype_str_cell_idempotent.
  - reflexivity.
Qed.

(** A table whose Tarif has no missing cell, whose Ligne is what
    [astype(str)] gives and whose color is the constant is left as it is
    by the standardisation step. *)
Lemma standardise_fixpoint (pandas : pandas_version) (py_repr : pyval -> string)
    (d : DataFrame) :
  has_col "Tarif" d = true -> has_col "Ligne" d = true ->
  has_col "color" d = true ->
  Forall (fun x => isna x = false) (column d "Tarif") ->
  astype_str pandas py_repr (column d "Ligne") = column d "Ligne" ->
  column d "color" = broadcast d (VStr "#FF0000") ->
  standardise pandas py_repr d = d.
Proof.
  intros Ht Hl Hc Hnt Hligne Hcolor. unfold standardise.
  rewrite Ht, (fillna_nothing_missing _ _ Hnt), (setitem_same d "Tarif" Ht).
  rewrite Hl, Hligne.
  rewrite (setitem_same d "Ligne" Hl), <- Hcolor. now apply setitem_same.
Qed.

(** Cleaning is idempotent: given back to [clean_data], a table (with
    distinct labels) that [clean_data] returned for a rectangular frame
    comes out unchanged. *)
Theorem clean_data_idempotent (pandas : pandas_version) (py_repr : pyval -> string) (raw df : DataFrame) :
  rectangular raw = true ->
  clean_table pandas py_repr raw = Ok df ->
  distinct (columns df) = true ->
  clean_table pandas py_repr df = Ok df.
Proof.
  intros Hr Hclean _. rewrite (clean_table_eq pandas py_repr df). unfold clean_frame.
  destruct (empty df) eqn:Hed; [reflexivity|].
  destruct (empty raw) eqn:He.
  { rewrite (clean_table_empty pandas py_repr raw df He Hclean) in Hed. congruence. }
  destruct (cleaned_schema pandas py_repr raw df He Hclean)
    as ((Hlat & Hlon & Ht & Hl & Hc) & _ & Hrd).
  specialize (Hrd Hr).
  destruct (cleaned_rows_have_coordinates pandas py_repr raw df He Hclean)
    as (Hnlat & Hnlon & _).
  destruct (clean_table_Ok pandas py_repr raw df He Hclean) as (kept & _ & Hk & Hdf).
  (* the coordinate block rewrites lat and lon with what they hold *)
  assert (extract_coords df = df) as ->.
  { unfold extract_coords. destruct (has_col "coord_geo" df) eqn:Hcg; [|reflexivity].
    assert (has_col "coord_geo" raw = true) as Hcr.
    { pose proof Hcg as Hcr. rewrite Hdf, Hk in Hcr.
      rewrite has_col_standardise_other in Hcr by discriminate.
      rewrite has_col_rename_coord in Hcr by tauto.
      now rewrite has_col_select_rows, has_col_extract_coords_coord in Hcr. }
    destruct (cleaned_coord_columns pandas py_repr raw df He Hcr Hclean) as (Elat & Elon).
    unfold apply. rewrite <- Elat, (setitem_same df "lat" Hlat).
    rewrite <- Elon. now apply setitem_same. }
  rewrite (dropna_nothing_missing df Hrd Hlat Hlon Hnlat Hnlon). simpl.
  (* no label of the table is one that the mapping renames *)
  rewrite (rename_without_source mapping df).
  2:{ intros k Hk'. rewrite Hdf in Hk'.
      apply In_columns_standardise in Hk' as [Hk' | [-> | [-> | ->]]];
        try reflexivity.
      unfold rename, columns in Hk'. simpl in Hk'. rewrite map_map in Hk'.
      apply in_map_iff in Hk' as ([k0 s0] & <- & _). simpl.
      apply mapping_renamed_is_no_source. }
  f_equal. apply standardise_fixpoint; try assumption.
  - rewrite Hdf, column_standardise_Tarif.
    destruct (has_col "Tarif" (rename mapping kept)).
    + apply Forall_notna_fillna.
    + unfold broadcast. apply Forall_forall. intros x Hx.
      apply list_elem_of_In, in_map_iff in Hx as (? & <- & _). reflexivity.
  - rewrite Hdf. apply astype_str_standardised.
  - rewrite Hdf. apply column_standardise_color.
Qed.

Lemma clean_data_idempotent_witness :
  exists df : DataFrame,
    clean_table Pandas3 no_repr (DataFrame_of_records [paris_record; ligne4_record]) = Ok df /\
    len df = 1 /\
    clean_table Pandas3 no_repr df = Ok df.
Proof.
  eexists. split; [reflexivity|]. split; [reflexivity|].
  exact (clean_data_idempotent Pandas3 no_repr
           (DataFrame_of_records [paris_record; ligne4_record]) _
           eq_refl eq_refl eq_refl).
Defined.

(** ** The options of the multiselect *)

Lemma insert_sorted_Permutation (x : string) (l : list string) :
  Permutation (insert_sorted x l) (x :: l).
Proof.
  induction l as [|y l IH]; simpl; [done|].
  destruct (String.leb x y); [done|].
  rewrite IH. apply perm_swap.
Qed.

Lemma sorted_Permutation (l : list string) : Permutation (sorted l) l.
Proof.
  induction l as [|x l IH]; [done|].
  change (sorted (x :: l)) with (insert_sorted x (sorted l)).
  rewrite insert_sorted_Permutation. now constructor.
Qed.

Lemma insert_sorted_Sorted (x : string) (l : list string) :
  Sorted (fun a b => String.leb a b = true) l ->
  Sorted (fun a b => String.leb a b = true) (insert_sorted x l).
Proof.
  induction 1 as [|y l Hs IH Hhd]; simpl; [repeat constructor|].
  destruct (String.leb x y) eqn:E.
  - repeat constructor; assumption.
  - constructor; [exact IH|].
    assert (String.leb y x = true) as Hyx
      by (destruct (String.leb_total x y); congruence).
    destruct Hhd as [|z l Hyz]; simpl; [now constructor|].
    destruct (String.leb x z); now constructor.
Qed.

Lemma sorted_Sorted (l : list string) :
  Sorted (fun a b => String.leb a b = true) (sorted l).
Proof.
  induction l as [|x l IH]; [constructor|].
  change (sorted (x :: l)) with (insert_sorted x (sorted l)).
  now apply insert_sorted_Sorted.
Qed.

Lemma distinct_NoDup (l : list string) : distinct l = true -> NoDup l.
Proof.
  induction l as [|x l IH]; simpl; [constructor|].
  intros H. apply andb_prop in H as [Hx Hl]. constructor; [|auto].
  intros Hin. apply list_elem_of_In, mem_In in Hin. now rewrite Hin in Hx.
Qed.

Lemma cleaned_not_empty (pandas : pandas_version) (py_repr : pyval -> string) (raw df : DataFrame) :
  clean_table pandas py_repr raw = Ok df -> empty df = false -> empty raw = false.
Proof.
  intros Hclean Hed. destruct (empty raw) eqn:He; [|reflexivity].
  rewrite (clean_table_empty pandas py_repr raw df He Hclean) in Hed. congruence.
Qed.

(** On a table returned by [clean_data] that is not empty, has distinct
    labels and no missing Ligne, the options offered by the multiselect
    are in ascending order, hold no line twice, and are exactly the lines
    that occur in the Ligne column. *)
Theorem lignes_dispo_sorted_distinct
    (pandas : pandas_version) (py_repr : pyval -> string) (raw df : DataFrame) :
  clean_table pandas py_repr raw = Ok df ->
  distinct (columns df) = true ->
  empty df = false ->
  Forall (fun v => isna v = false) (column df "Ligne") ->
  exists options : list string,
    lignes_dispo df = Ok options /\
    Sorted (fun a b => String.leb a b = true) options /\
    NoDup options /\
    forall x : string, In x options <-> In (VStr x) (column df "Ligne").
Proof.
  intros Hclean Hdist Hed Hna.
  pose proof (cleaned_not_empty pandas py_repr raw df Hclean Hed) as He.
  destruct (cleaned_schema pandas py_repr raw df He Hclean)
    as ((_ & _ & _ & Hl & _) & _).
  destruct (cleaned_lignes_dispo pandas py_repr raw df Hclean Hed Hl Hdist Hna)
    as (texts & Hcol & _ & Hopts).
  exists (sorted (unique texts)). split; [exact Hopts|]. repeat split.
  - apply sorted_Sorted.
  - rewrite sorted_Permutation. apply distinct_NoDup, distinct_unique_acc.
  - intros Hx. rewrite Hcol. apply in_map. apply mem_In.
    rewrite <- mem_unique, <- mem_sorted. now apply mem_In.
  - rewrite Hcol, in_map_iff. intros (y & [= ->] & Hy).
    apply mem_In. rewrite mem_sorted, mem_unique. now apply mem_In.
Qed.

Lemma lignes_dispo_sorted_distinct_witness :
  exists (df : DataFrame) (options : list string),
    clean_table Pandas3 no_repr (DataFrame_of_records [paris_record; paris_record])
    = Ok df /\
    lignes_dispo df = Ok options /\
    NoDup options.
Proof.
  eexists.
  destruct (lignes_dispo_sorted_distinct Pandas3 no_repr
              (DataFrame_of_records [paris_record; paris_record]) _
              eq_refl eq_refl eq_refl) as (options & Hopts & _ & Hnd & _).
  { repeat constructor. }
  exists options. split; [reflexivity|]. split; [exact Hopts | exact Hnd].
Defined.

(** ** The filtered view *)

(** What [df_filtre] returns, when it returns. *)
Lemma df_filtre_Ok_cases (df view : DataFrame)
    (multiselect : list string -> list string) :
  df_filtre multiselect df = Ok view ->
  view = df \/
  exists options : list string,
    lignes_dispo df = Ok options /\ multiselect options <> [] /\
    view = select_rows (isin (multiselect options) (column df "Ligne")) df.
Proof.
  unfold df_filtre. destruct (negb (empty df) && has_col "Ligne" df) eqn:Hg.
  2:{ intros [= <-]. now left. }
  apply andb_prop in Hg as [_ Hc].
  destruct (lignes_dispo df) as [options|e] eqn:Hopts; simpl; [|discriminate].
  destruct (multiselect options) as [|c choix] eqn:Hm.
  { intros [= <-]. now left. }
  rewrite (getitem_has_col df "Ligne" Hc). simpl. intros [= <-].
  right. exists options. rewrite Hm. repeat split; done.
Qed.

(** The filter returns as soon as line 95 does. *)
Lemma df_filtre_returns (df : DataFrame) (multiselect : list string -> list string) :
  (exists options, lignes_dispo df = Ok options) \/
  negb (empty df) && has_col "Ligne" df = false ->
  exists view, df_filtre multiselect df = Ok view.
Proof.
  unfold df_filtre. intros [[options Hopts] | Hg].
  - destruct (negb (empty df) && has_col "Ligne" df) eqn:Hg; [|eauto].
    apply andb_prop in Hg as [_ Hc]. rewrite Hopts. simpl.
    destruct (multiselect options); [eauto|].
    rewrite (getitem_has_col df "Ligne" Hc). simpl. eauto.
  - rewrite Hg. eauto.
Qed.

Lemma cleaned_options (pandas : pandas_version) (py_repr : pyval -> string)
    (raw df : DataFrame) :
  clean_table pandas py_repr raw = Ok df ->
  distinct (columns df) = true ->
  Forall (fun v => isna v = false) (column df "Ligne") ->
  (exists options, lignes_dispo df = Ok options) \/
  negb (empty df) && has_col "Ligne" df = false.
Proof.
  intros Hclean Hdist Hna.
  destruct (empty df) eqn:Hed; [now right|].
  destruct (has_col "Ligne" df) eqn:Hc; [|now right].
  destruct (cleaned_lignes_dispo pandas py_repr raw df Hclean Hed Hc Hdist Hna)
    as (texts & _ & _ & Hopts).
  left. eauto.
Qed.

(** Whatever the user selects, the filter of a table returned by
    [clean_data] with distinct labels and no missing Ligne does not raise;
    the view has the columns of the table, and its rows are rows of the
    table, in the same order. *)
Theorem df_filtre_is_a_selection
    (pandas : pandas_version) (py_repr : pyval -> string) (raw df : DataFrame)
    (multiselect : list string -> list string) :
  clean_table pandas py_repr raw = Ok df ->
  distinct (columns df) = true ->
  Forall (fun v => isna v = false) (column df "Ligne") ->
  exists view : DataFrame,
    df_filtre multiselect df = Ok view /\
    columns view = columns df /\
    index view `sublist_of` index df /\
    len view <= len df.
Proof.
  intros Hclean Hdist Hna.
  destruct (df_filtre_returns df multiselect
              (cleaned_options pandas py_repr raw df Hclean Hdist Hna))
    as [view Hview].
  exists view. split; [exact Hview|].
  destruct (df_filtre_Ok_cases df view multiselect Hview)
    as [-> | (options & _ & _ & ->)].
  - repeat split; auto.
  - split; [apply columns_select_rows|].
    assert (forall m, index (select_rows m df) `sublist_of` index df) as Hsub
      by (intros m; apply select_sublist).
    split; [apply Hsub | apply sublist_length, Hsub].
Qed.

Lemma df_filtre_is_a_selection_witness :
  exists df view : DataFrame,
    clean_table Pandas3 no_repr (DataFrame_of_records [paris_record; paris_record])
    = Ok df /\
    df_filtre (fun _ => ["7"]) df = Ok view /\
    len view <= len df.
Proof.
  eexists.
  destruct (df_filtre_is_a_selection Pandas3 no_repr
              (DataFrame_of_records [paris_record; paris_record]) _
              (fun _ => ["7"]) eq_refl eq_refl) as (view & Hv & _ & _ & Hlen).
  { repeat constructor. }
  exists view. split; [reflexivity|]. split; [exact Hv | exact Hlen].
Defined.

(** A user who selects nothing gets the whole table: on a table returned
    by [clean_data] with distinct labels and no missing Ligne, the view is
    the table itself. *)
Theorem empty_selection_keeps_table
    (pandas : pandas_version) (py_repr : pyval -> string) (raw df : DataFrame) :
  clean_table pandas py_repr raw = Ok df ->
  distinct (columns df) = true ->
  Forall (fun v => isna v = false) (column df "Ligne") ->
  df_filtre (fun _ => []) df = Ok df.
Proof.
  intros Hclean Hdist Hna. unfold df_filtre.
  destruct (cleaned_options pandas py_repr raw df Hclean Hdist Hna)
    as [[options Hopts] | ->]; [|reflexivity].
  destruct (negb (empty df) && has_col "Ligne" df); [|reflexivity].
  now rewrite Hopts.
Qed.

Lemma empty_selection_keeps_table_witness :
  exists df : DataFrame,
    clean_table Pandas3 no_repr (DataFrame_of_records [paris_record]) = Ok df /\
    len df = 1 /\
    df_filtre (fun _ => []) df = Ok df.
Proof.
  eexists. split; [reflexivity|]. split; [reflexivity|].
  apply (empty_selection_keeps_table Pandas3 no_repr
           (DataFrame_of_records [paris_record])); [reflexivity..|].
  repeat constructor.
Defined.

(** A user who keeps every offered line selected gets the whole table: on
    a table returned by [clean_data] that is not empty, has distinct labels
    and no missing Ligne, the options are the lines of the table (there is
    at least one), the rows whose Ligne is one of the options are all the
    rows, and the view equals the table. *)
Theorem full_selection_keeps_table
    (pandas : pandas_version) (py_repr : pyval -> string) (raw df : DataFrame) :
  rectangular raw = true ->
  clean_table pandas py_repr raw = Ok df ->
  distinct (columns df) = true ->
  empty df = false ->
  Forall (fun v => isna v = false) (column df "Ligne") ->
  exists options : list string,
    lignes_dispo df = Ok options /\
    options <> [] /\
    (forall x : string, In x options <-> In (VStr x) (column df "Ligne")) /\
    select_rows (isin options (column df "Ligne")) df = df /\
    df_filtre (fun lignes_dispo => lignes_dispo) df = Ok df.
Proof.
  intros Hr Hclean Hdist Hed Hna.
  pose proof (cleaned_not_empty pandas py_repr raw df Hclean Hed) as He.
  destruct (cleaned_schema pandas py_repr raw df He Hclean)
    as ((_ & _ & _ & Hc & _) & _).
  pose proof (cleaned_rectangular pandas py_repr raw df Hr Hclean) as Hrd.
  destruct (cleaned_lignes_dispo pandas py_repr raw df Hclean Hed Hc Hdist Hna)
    as (texts & Hcol & Hg & Hopts).
  assert (forall x, In x (sorted (unique texts)) <-> In (VStr x) (column df "Ligne"))
    as Hiff.
  { intros x. rewrite Hcol. split.
    - intros Hx. apply in_map, mem_In.
      rewrite <- mem_unique, <- mem_sorted. now apply mem_In.
    - rewrite in_map_iff. intros (y & [= ->] & Hy).
      apply mem_In. rewrite mem_sorted, mem_unique. now apply mem_In. }
  assert (select_rows (isin (sorted (unique texts)) (column df "Ligne")) df = df)
    as Hsel.
  { apply select_rows_all; [exact Hrd | |].
    - unfold isin. rewrite length_map. now apply length_column.
    - intros b. unfold isin. rewrite Hcol, map_map, in_map_iff.
      intros (x & <- & Hx). rewrite mem_sorted, mem_unique. now apply mem_In. }
  assert (sorted (unique texts) <> []) as Hne.
  { pose proof (length_column df "Ligne" Hrd Hc) as Hlen.
    rewrite Hcol, length_map in Hlen.
    destruct texts as [|x texts].
    - unfold empty, len in *. simpl in Hlen.
      destruct (index df); [|discriminate]. discriminate.
    - intros Hnil. assert (In x (sorted (unique (x :: texts)))) as Hin.
      { apply Hiff. rewrite Hcol. now left. }
      rewrite Hnil in Hin. destruct Hin. }
  exists (sorted (unique texts)).
  split; [exact Hopts|]. split; [exact Hne|]. split; [exact Hiff|].
  split; [exact Hsel|].
  unfold df_filtre. rewrite Hed, Hc, Hopts. simpl.
  destruct (sorted (unique texts)) as [|o opts] eqn:Ho; [reflexivity|].
  rewrite Hg. simpl. now rewrite <- Hcol, Hsel.
Qed.

Lemma full_selection_keeps_table_witness :
  exists df : DataFrame,
    clean_table Pandas3 no_repr (DataFrame_of_records [paris_record; paris_record])
    = Ok df /\
    len df = 2 /\
    lignes_dispo df = Ok ["1"] /\
    df_filtre (fun lignes_dispo => lignes_dispo) df = Ok df.
Proof.
  eexists. split; [reflexivity|]. split; [reflexivity|]. split; [reflexivity|].
  destruct (full_selection_keeps_table Pandas3 no_repr
              (DataFrame_of_records [paris_record; paris_record]) _
              eq_refl eq_refl eq_refl eq_refl) as (options & _ & _ & _ & _ & Hview).
  { repeat constructor. }
  exact Hview.
Defined.

Lemma select_by_own_mask {A} (p : A -> bool) (xs : list A) :
  select (map p xs) xs = List.filter p xs.
Proof.
  induction xs as [|x xs IH]; simpl; [done|]. destruct (p x); now rewrite IH.
Qed.

(** With a selection that is not empty, the view holds exactly the rows
    whose Ligne is one of the chosen lines, in the order of the table. *)
Theorem df_filtre_keeps_chosen_lines
    (pandas : pandas_version) (py_repr : pyval -> string) (raw df view : DataFrame)
    (multiselect : list string -> list string) (options : list string) :
  rectangular raw = true ->
  clean_table pandas py_repr raw = Ok df ->
  distinct (columns df) = true ->
  empty df = false ->
  lignes_dispo df = Ok options ->
  multiselect options <> [] ->
  df_filtre multiselect df = Ok view ->
  column view "Ligne"
  = List.filter (chosen (multiselect options)) (column df "Ligne") /\
  len view
  = length (List.filter (chosen (multiselect options)) (column df "Ligne")).
Proof.
  intros Hr Hclean _ Hed Hopts Hne Hview.
  pose proof (cleaned_rectangular pandas py_repr raw df Hr Hclean) as Hrd.
  pose proof (cleaned_not_empty pandas py_repr raw df Hclean Hed) as He.
  destruct (cleaned_schema pandas py_repr raw df He Hclean) as ((_ & _ & _ & Hl & _) & _).
  unfold df_filtre in Hview. rewrite Hed, Hl, Hopts in Hview. simpl in Hview.
  destruct (multiselect options) as [|c choix] eqn:Hm; [congruence|].
  rewrite (getitem_has_col df "Ligne" Hl) in Hview. simpl in Hview.
  injection Hview as <-.
  assert (column (select_rows (isin (c :: choix) (column df "Ligne")) df) "Ligne"
          = List.filter (chosen (c :: choix)) (column df "Ligne")) as Hcol.
  { rewrite column_select_rows. apply select_by_own_mask. }
  split; [exact Hcol|]. rewrite <- Hcol. symmetry. apply length_column.
  - now apply rectangular_select_rows.
  - now rewrite has_col_select_rows.
Qed.

Lemma df_filtre_keeps_chosen_lines_witness :
  exists df view : DataFrame,
    clean_table Pandas3 no_repr
      (DataFrame_of_records
         [paris_record;
          [("coord_geo", VList [VFloat 48.9; VFloat 2.3]); ("ligne", VStr "7")]])
    = Ok df /\
    df_filtre (fun _ => ["7"]) df = Ok view /\
    len view = 1.
Proof.
  eexists. eexists. split; [reflexivity|]. split; [reflexivity|].
  exact (proj2 (df_filtre_keeps_chosen_lines Pandas3 no_repr
                  (DataFrame_of_records
                     [paris_record;
                      [("coord_geo", VList [VFloat 48.9; VFloat 2.3]);
                       ("ligne", VStr "7")]])
                  _ _ (fun _ => ["7"]) ["1"; "7"]
                  eq_refl eq_refl eq_refl eq_refl eq_refl
                  ltac:(discriminate) eq_refl)).
Defined.

(** ** The pages *)

Lemma view_of_table (df view : DataFrame)
    (multiselect : list string -> list string) :
  df_filtre multiselect df = Ok view ->
  view = df \/ exists m, view = select_rows m df.
Proof.
  intros Hview.
  destruct (df_filtre_Ok_cases df view multiselect Hview)
    as [-> | (options & _ & _ & ->)]; eauto.
Qed.

Lemma empty_select_rows (m : list bool) (d : DataFrame) :
  empty (select_rows m d) = false -> empty d = false.
Proof.
  destruct d as [idx cs]. unfold empty, select_rows. simpl.
  destruct idx as [|i idx]; [now destruct m|].
  destruct cs as [|c cs]; simpl; [|reflexivity].
  now destruct (select m (i :: idx)).
Qed.

Lemma view_columns (df view : DataFrame)
    (multiselect : list string -> list string) (k : string) :
  df_filtre multiselect df = Ok view ->
  has_col k view = has_col k df /\
  (empty view = false -> empty df = false) /\
  (rectangular df = true -> rectangular view = true).
Proof.
  intros Hview.
  destruct (view_of_table df view multiselect Hview) as [-> | [m ->]]; [tauto|].
  repeat split.
  - apply has_col_select_rows.
  - apply empty_select_rows.
  - apply rectangular_select_rows.
Qed.

Lemma length_select_map {A B} (p : A -> bool) (xs : list A) (idx : list B) :
  length xs = length idx ->
  length (select (map p xs) idx) = length (List.filter p xs).
Proof.
  revert idx. induction xs as [|x xs IH]; intros [|i idx]; simpl; try done.
  intros [= Hlen]. destruct (p x); simpl; now rewrite IH.
Qed.

(** On a table returned by [clean_data] that is not empty, and for any
    selection, the Accueil page runs to its end; its first metric is the
    number of rows of the view, its second the number of those rows whose
    Tarif is "Gratuit", which is never more than the first. *)
Theorem accueil_metrics
    (pandas : pandas_version) (py_repr : pyval -> string) (raw df view : DataFrame)
    (multiselect : list string -> list string) :
  rectangular raw = true ->
  clean_table pandas py_repr raw = Ok df ->
  distinct (columns df) = true ->
  empty df = false ->
  df_filtre multiselect df = Ok view ->
  page_accueil df view
  = ([ st_title "🚾 Dashboard RATP (API En direct)";
       success_banner;
       st_metric "Stations trouvées" (len view);
       st_metric "Toilettes Gratuites"
                 (length (List.filter is_gratuit (column view "Tarif")));
       st_markdown "---";
       st_subheader "💰 Répartition Gratuit / Payant";
       st_plotly_chart (px_pie view "Tarif") ],
     Ok tt) /\
  length (List.filter is_gratuit (column view "Tarif")) <= len view.
Proof.
  intros Hr Hclean _ Hed Hview.
  pose proof (cleaned_not_empty pandas py_repr raw df Hclean Hed) as He.
  destruct (cleaned_schema pandas py_repr raw df He Hclean)
    as ((_ & _ & Ht & _ & _) & _ & Hrd).
  destruct (view_columns df view multiselect "Tarif" Hview) as (Hcv & _ & Hrv).
  rewrite Ht in Hcv. specialize (Hrv (Hrd Hr)).
  pose proof (length_column view "Tarif" Hrv Hcv) as Hlen.
  split.
  - unfold page_accueil. rewrite Hed, (getitem_has_col view "Tarif" Hcv). simpl.
    unfold len at 2. simpl. unfold eq_str.
    change (fun v : pyval => match v with
                             | VStr y => String.eqb y "Gratuit"
                             | _ => false
                             end) with is_gratuit.
    now rewrite (length_select_map is_gratuit _ (index view) Hlen).
  - rewrite <- Hlen. apply filter_length_le.
Qed.

Lemma accueil_metrics_witness :
  exists df : DataFrame,
    clean_table Pandas3 no_repr (DataFrame_of_records [paris_record; paris_record]) = Ok df /\
    length (List.filter is_gratuit (column df "Tarif")) <= len df.
Proof.
  eexists. split; [reflexivity|].
  exact (proj2 (accueil_metrics Pandas3 no_repr
                  (DataFrame_of_records [paris_record; paris_record]) _ _
                  (fun options => options)
                  eq_refl eq_refl eq_refl eq_refl eq_refl)).
Defined.

(** ** A run of the script *)


Section ScriptRun.

Variable pandas : pandas_version.
Variable py_repr : pyval -> string.
Variable positional_frame : list pyval -> result DataFrame.
Variable value_counts : list pyval -> list (pyval * nat).





(** When the fetcher has shown a message -- a status other than 200, an
    exception of the request or of the parse -- the run still goes to its
    end on every page: under the message come the sidebar without the
    multiselect, the title of the page, and then the success banner on
    Accueil, the no-data warning on Statistiques and on Carte, and an empty
    table on Données. *)
Theorem script_after_failed_fetch
    (reply : http_reply) (radio : menu) (multiselect : list string -> list string) :
  fst (load_data_from_api positional_frame reply) <> [] ->
  exists body : string,
    script pandas py_repr positional_frame value_counts reply radio multiselect
    = (Main (st_error body) :: sidebar_head ++
       match radio with
       | Accueil =>
           [Main (st_title "🚾 Dashboard RATP (API En direct)"); Main success_banner]
       | Statistiques =>
           [Main (st_title "📊 Statistiques"); Main (st_warning "Pas de données.")]
       | Carte =>
           [Main (st_title "📍 Carte en direct");
            Main (st_warning "Pas de données GPS.")]
       | Donnees =>
           [Main (st_title "📋 Données Brutes API"); st_dataframe empty_frame]
       end,
       Ok tt).
Proof.
  intros Hshown.
  destruct (load_message_or_frame positional_frame reply)
    as [Hnone | (body & Hload)]; [contradiction|].
  exists body. unfold script. rewrite Hload.
  now destruct radio.
Qed.

End ScriptRun.


Lemma script_after_failed_fetch_witness :
  exists body : string,
    script Pandas3 no_repr no_positional (fun _ => []) (Reply 500 (Ok VNone)) Carte
      (fun options => options)
    = ([ Main (st_error body);
         sidebar_title "Navigation";
         sidebar_radio "Aller à" ["Accueil"; "Statistiques"; "Carte"; "Données"];
         sidebar_markdown "---";
         sidebar_header "Filtres";
         Main (st_title "📍 Carte en direct");
         Main (st_warning "Pas de données GPS.") ],
       Ok tt).
Proof.
  destruct (script_after_failed_fetch Pandas3 no_repr no_positional (fun _ => [])
              (Reply 500 (Ok VNone)) Carte (fun options => options))
    as [body Hbody]; [simpl; discriminate|].
  exists body. exact Hbody.
Defined.

(** ** Rows of the returned table have coordinates *)

(** Every row of the table that [clean_data] returns for a frame that is
    not empty has a lat and a lon that are not missing; when the frame had
    a coord_geo column, the coord_geo cell of the row is a two-element
    list. *)
Theorem cleaned_rows_coordinates_present
    (pandas : pandas_version) (py_repr : pyval -> string) (raw df : DataFrame) :
  empty raw = false ->
  clean_table pandas py_repr raw = Ok df ->
  Forall (fun v => isna v = false) (column df "lat") /\
  Forall (fun v => isna v = false) (column df "lon") /\
  (has_col "coord_geo" raw = true ->
   Forall (fun x => exists a b, x = VList [a; b]) (column df "coord_geo")).
Proof. apply cleaned_rows_have_coordinates. Qed.

Lemma cleaned_rows_coordinates_present_witness :
  exists df : DataFrame,
    clean_table Pandas3 no_repr (DataFrame_of_records [paris_record; ligne4_record]) = Ok df /\
    Forall (fun v => isna v = false) (column df "lat").
Proof.
  eexists. split; [reflexivity|].
  exact (proj1 (cleaned_rows_coordinates_present Pandas3 no_repr
                  (DataFrame_of_records [paris_record; ligne4_record]) _
                  eq_refl eq_refl)).
Defined.
